(** * The Lambda relay handler of [src/lambda/handler.py]

    The repository has one function, [handler(event, context)]: it reads the
    environment variable BUCKET_NAME, assembles a record, writes its JSON
    text to S3 under a key derived from the clock, and answers with an
    HTTP-style envelope; one [except Exception] clause turns every failure
    into a 500 envelope.

    The embedding follows the source line by line:
    - Python values are the inductive [pyval] (None, bool, int, str, list,
      dict with str keys): the values a JSON document decodes to.  A dict
      is an association list in insertion order, as CPython iterates it.
      A str is a [string] whose characters stand for the code points
      0..255; floats are left out.
    - [json.dumps] and [json.loads] are embedded from the pure-Python
      encoder and decoder of the standard library ([json/encoder.py],
      [json/decoder.py], [json/scanner.py]).  [json.dumps] is partial: it
      raises [ValueError] on an int with more digits than
      [sys.get_int_max_str_digits()] allows and [RecursionError] on a value
      nested deeper than the interpreter has frames for.  The two limits
      are the fields of an [Interpreter], over which every fact on the
      handler is stated.
    - [datetime.utcnow], [os.environ.get], [s3.put_object] and [print] are
      operations of a small monad over a [world]: the environment, the
      stream of clock readings, the behaviour of the S3 client, and a trace
      of the effects of the invocation.  An exception carries its class and
      the classes it derives from; [try_except] is the
      [try: ... except Exception as e:] statement, which lets an exception
      that is no instance of [Exception] through to the caller.

    With BUCKET_NAME set the handler has five ways to end: line 37 raises
    and nothing is written (500); the write raises an [Exception] (500);
    the write raises another [BaseException], which leaves the handler;
    the write returns and line 45 raises (500, with the object written);
    the write returns and line 45 returns (200). *)

From Stdlib Require Import ZArith NArith Arith Lia List Bool Ascii String.
From Stdlib Require Import Decimal DecimalString DecimalFacts DecimalPos DecimalZ.
Import ListNotations.

#[local] Open Scope list_scope.
#[local] Open Scope string_scope.

(* ================================================================= *)
(** ** Characters and strings *)

Module Str.

(** Characters that Rocq's string syntax cannot write directly. *)
Definition dquote : ascii := "034"%char.
Definition backslash : ascii := "092"%char.
Definition LF : ascii := "010"%char.

Definition nl : string := String LF EmptyString.
Definition quote : string := String dquote EmptyString.

(** [' ' * n] *)
Fixpoint spaces (n : nat) : string :=
  match n with
  | O => EmptyString
  | S k => String " " (spaces k)
  end.

Definition is_digit (c : ascii) : bool :=
  match c with
  | "0" | "1" | "2" | "3" | "4" | "5" | "6" | "7" | "8" | "9" => true
  | _ => false
  end%char.

Fixpoint all_digits (s : string) : bool :=
  match s with
  | EmptyString => true
  | String c r => is_digit c && all_digits r
  end.

(** [s.startswith(p)] *)
Definition startswith (p s : string) : bool := String.prefix p s.

(** [p in s] *)
Fixpoint contains (p s : string) : bool :=
  String.prefix p s ||
  match s with
  | EmptyString => false
  | String _ r => contains p r
  end.

(** [s.zfill(width)] for an unsigned numeral [s]. *)
Definition zfill (width : nat) (s : string) : string :=
  (fix zeros (k : nat) : string :=
     match k with
     | O => s
     | S k' => String "0" (zeros k')
     end) (width - String.length s).

End Str.

(* ================================================================= *)
(** ** Integers in decimal *)

Module Dec.

(** [repr(n)] / [str(n)] of a Python int. *)
Definition int_repr (z : Z) : string :=
  match z with
  | Z0 => "0"
  | Zpos p => NilEmpty.string_of_uint (Pos.to_uint p)
  | Zneg p => String "-" (NilEmpty.string_of_uint (Pos.to_uint p))
  end.

(** ['%0<w>d' % n] for [0 <= n]. *)
Definition zero_padded (w : nat) (n : Z) : string := Str.zfill w (int_repr n).

(** [\d{w}]: exactly [w] decimal digits. *)
Definition is_digits (w : nat) (s : string) : bool :=
  Nat.eqb (String.length s) w && Str.all_digits s.

End Dec.

(* ================================================================= *)
(** ** [datetime]: the naive UTC instants that [datetime.utcnow()] returns *)

Module Datetime.

Record datetime : Type := mkDatetime {
  year : Z;
  month : Z;
  day : Z;
  hour : Z;
  minute : Z;
  second : Z;
  microsecond : Z
}.

Definition is_leap (y : Z) : bool :=
  ((y mod 4 =? 0) && negb (y mod 100 =? 0) || (y mod 400 =? 0))%Z.

Definition days_in_month (y m : Z) : Z :=
  if (m =? 2)%Z then (if is_leap y then 29 else 28)
  else if ((m =? 4) || (m =? 6) || (m =? 9) || (m =? 11))%Z then 30
  else 31.

(** The ranges the constructor of [datetime] enforces (MINYEAR = 1,
    MAXYEAR = 9999). *)
Definition valid (d : datetime) : bool :=
  ((1 <=? year d) && (year d <=? 9999)
   && (1 <=? month d) && (month d <=? 12)
   && (1 <=? day d) && (day d <=? days_in_month (year d) (month d))
   && (0 <=? hour d) && (hour d <? 24)
   && (0 <=? minute d) && (minute d <? 60)
   && (0 <=? second d) && (second d <? 60)
   && (0 <=? microsecond d) && (microsecond d <? 1000000))%Z.

(** One [%x] directive of [strftime]; the handler uses Y, m, d, H, M, S. *)
Definition directive (d : datetime) (c : ascii) : string :=
  match c with
  | "Y" => Dec.zero_padded 4 (year d)
  | "m" => Dec.zero_padded 2 (month d)
  | "d" => Dec.zero_padded 2 (day d)
  | "H" => Dec.zero_padded 2 (hour d)
  | "M" => Dec.zero_padded 2 (minute d)
  | "S" => Dec.zero_padded 2 (second d)
  | "f" => Dec.zero_padded 6 (microsecond d)
  | "%" => "%"%string
  | _ => String "%" (String c EmptyString)
  end%char.

(** [d.strftime(fmt)]: directives are replaced, every other character is
    copied. *)
Fixpoint strftime (d : datetime) (fmt : string) : string :=
  match fmt with
  | EmptyString => EmptyString
  | String "%" (String c rest) => directive d c ++ strftime d rest
  | String c rest => String c (strftime d rest)
  end.

(** [d.isoformat()] of a naive datetime: the fraction is printed only when
    the microsecond is not zero. *)
Definition isoformat (d : datetime) : string :=
  Dec.zero_padded 4 (year d) ++ "-" ++ Dec.zero_padded 2 (month d) ++ "-"
  ++ Dec.zero_padded 2 (day d) ++ "T"
  ++ Dec.zero_padded 2 (hour d) ++ ":" ++ Dec.zero_padded 2 (minute d) ++ ":"
  ++ Dec.zero_padded 2 (second d)
  ++ (if (microsecond d =? 0)%Z then EmptyString
      else "." ++ Dec.zero_padded 6 (microsecond d)).

(** The date and the time of day as the spec words them. *)
Definition date_YYYY_MM_DD (d : datetime) : string :=
  Dec.zero_padded 4 (year d) ++ "-" ++ Dec.zero_padded 2 (month d) ++ "-"
  ++ Dec.zero_padded 2 (day d).

Definition time_HH_MM_SS (d : datetime) : string :=
  Dec.zero_padded 2 (hour d) ++ "-" ++ Dec.zero_padded 2 (minute d) ++ "-"
  ++ Dec.zero_padded 2 (second d).

(** [\d{4}-\d{2}-\d{2}] and [\d{2}-\d{2}-\d{2}] *)
Definition is_date (s : string) : Prop :=
  exists Y m d : string,
    s = Y ++ "-" ++ m ++ "-" ++ d
    /\ Dec.is_digits 4 Y = true /\ Dec.is_digits 2 m = true /\ Dec.is_digits 2 d = true.

Definition is_time (s : string) : Prop :=
  exists H M S : string,
    s = H ++ "-" ++ M ++ "-" ++ S
    /\ Dec.is_digits 2 H = true /\ Dec.is_digits 2 M = true /\ Dec.is_digits 2 S = true.

End Datetime.

(* ================================================================= *)
(** ** Exceptions and the limits of the interpreter *)

Module Python.

(** An exception: its class, the classes that class derives from, and the
    text [str(e)] gives. *)
Record exn : Type := mkExn {
  exn_class : string;
  exn_bases : list string;
  exn_text : string
}.

(** [isinstance(e, cls)] *)
Definition isinstance (e : exn) (cls : string) : bool :=
  String.eqb cls (exn_class e) || existsb (String.eqb cls) (exn_bases e).

Definition ValueError (msg : string) : exn :=
  mkExn "ValueError" ["Exception"; "BaseException"] msg.

Definition RecursionError (msg : string) : exn :=
  mkExn "RecursionError" ["RuntimeError"; "Exception"; "BaseException"] msg.

(** The interrupt of the host: a [BaseException] that is no [Exception]. *)
Definition KeyboardInterrupt : exn :=
  mkExn "KeyboardInterrupt" ["BaseException"] EmptyString.

(** [str(e)] *)
Definition str (e : exn) : string := exn_text e.

(** What evaluating an expression gives: a value, or an exception. *)
Inductive outcome (A : Type) : Type :=
| Returns (a : A)
| Raises (e : exn).

Arguments Returns {A} a.
Arguments Raises {A} e.

(** The limits of the interpreter that [json.dumps] can meet:
    [sys.get_int_max_str_digits()] (0: no limit); the number of
    containers, one inside the other, that the encoder can still enter
    when the handler calls it, which is what [sys.getrecursionlimit()]
    leaves once the frames of the host, of the handler and of [json.dumps]
    itself are counted; and the text of the [RecursionError] raised beyond
    it, which depends on the call at which the interpreter notices. *)
Class Interpreter : Type := mkInterpreter {
  int_max_str_digits : nat;
  recursion_budget : nat;
  recursion_text : string
}.

(** The defaults of CPython: 4300 digits, and a recursion limit of 1000 of
    which ten frames are taken when the encoder starts.  The facts on the
    handler hold for every interpreter; this one serves the examples. *)
Definition cpython : Interpreter :=
  mkInterpreter 4300 990 "maximum recursion depth exceeded".

End Python.

(* ================================================================= *)
(** ** Python values and the [json] module *)

Module Json.

Import Str Python.

(** The values an invocation event is made of, which are also the values
    [json.loads] returns.  The items of a dict are kept in insertion
    order. *)
#[local] Unset Elimination Schemes.
Inductive pyval : Type :=
| PNone
| PBool (b : bool)
| PInt (n : Z)
| PStr (s : string)
| PList (items : list pyval)
| PDict (items : list (string * pyval)).
#[local] Set Elimination Schemes.

(** Induction on a value, with the hypothesis on every item of a list or
    of a dict. *)
Section Induction.

Variable P : pyval -> Prop.
Hypothesis case_None : P PNone.
Hypothesis case_Bool : forall b, P (PBool b).
Hypothesis case_Int : forall n, P (PInt n).
Hypothesis case_Str : forall s, P (PStr s).
Hypothesis case_List : forall items, Forall P items -> P (PList items).
Hypothesis case_Dict :
  forall items, Forall (fun kv => P (snd kv)) items -> P (PDict items).

Fixpoint pyval_ind (o : pyval) : P o :=
  match o with
  | PNone => case_None
  | PBool b => case_Bool b
  | PInt n => case_Int n
  | PStr s => case_Str s
  | PList items =>
      case_List items
        ((fix all (l : list pyval) : Forall P l :=
            match l with
            | [] => Forall_nil P
            | x :: l' => Forall_cons x (pyval_ind x) (all l')
            end) items)
  | PDict items =>
      case_Dict items
        ((fix all (l : list (string * pyval)) : Forall (fun kv => P (snd kv)) l :=
            match l with
            | [] => Forall_nil _
            | kv :: l' => Forall_cons kv (pyval_ind (snd kv)) (all l')
            end) items)
  end.

End Induction.

(** *** Dicts *)

(** [d[k] = v]: an existing key keeps its place, a new key goes last. *)
Fixpoint dict_set (d : list (string * pyval)) (k : string) (v : pyval)
  : list (string * pyval) :=
  match d with
  | [] => [(k, v)]
  | (k', v') :: d' =>
      if String.eqb k k' then (k, v) :: d' else (k', v') :: dict_set d' k v
  end.

(** [dict(pairs)] *)
Definition dict_of_pairs (pairs : list (string * pyval)) : list (string * pyval) :=
  fold_left (fun d kv => dict_set d (fst kv) (snd kv)) pairs [].

(** [d.get(k)] on the items of a dict. *)
Fixpoint lookup (k : string) (d : list (string * pyval)) : option pyval :=
  match d with
  | [] => None
  | (k', v) :: d' => if String.eqb k k' then Some v else lookup k d'
  end.

(** [o.get(k)] where [o] is expected to be a dict. *)
Definition get (k : string) (o : pyval) : option pyval :=
  match o with
  | PDict d => lookup k d
  | _ => None
  end.

(** [list(o.keys())] *)
Definition keys (o : pyval) : list string :=
  match o with
  | PDict d => map fst d
  | _ => []
  end.

Fixpoint distinct (l : list string) : bool :=
  match l with
  | [] => true
  | k :: l' => negb (existsb (String.eqb k) l') && distinct l'
  end.

(** A value is well formed when no dict in it has a key twice: a Python
    dict cannot. *)
Fixpoint well_formed (o : pyval) : bool :=
  match o with
  | PList items => forallb well_formed items
  | PDict items =>
      distinct (map fst items) && forallb (fun kv => well_formed (snd kv)) items
  | _ => true
  end.

(** *** The encoder ([json/encoder.py]) *)

Definition hex_digit (n : N) : ascii :=
  match n with
  | 0 => "0" | 1 => "1" | 2 => "2" | 3 => "3" | 4 => "4" | 5 => "5"
  | 6 => "6" | 7 => "7" | 8 => "8" | 9 => "9" | 10 => "a" | 11 => "b"
  | 12 => "c" | 13 => "d" | 14 => "e" | _ => "f"
  end%N%char.

(** ['\\u{0:04x}'.format(n)] for a code point below 256. *)
Definition escape_u (c : ascii) : string :=
  let n := N_of_ascii c in
  String backslash
    (String "u" (String "0" (String "0"
      (String (hex_digit (n / 16)) (String (hex_digit (n mod 16)) EmptyString))))).

(** [ESCAPE_DCT] with the fallback of [replace]: the characters from the
    space to the tilde other than the quote and the backslash are kept,
    every other one is escaped. *)
Definition escape_char (c : ascii) : string :=
  match c with
  | "034" => String backslash (String dquote EmptyString)
  | "092" => String backslash (String backslash EmptyString)
  | "008" => String backslash "b"
  | "012" => String backslash "f"
  | "010" => String backslash "n"
  | "013" => String backslash "r"
  | "009" => String backslash "t"
  | _ =>
      if ((32 <=? N_of_ascii c) && (N_of_ascii c <=? 126))%N
      then String c EmptyString
      else escape_u c
  end%char.

Fixpoint escape (s : string) : string :=
  match s with
  | EmptyString => EmptyString
  | String c r => escape_char c ++ escape r
  end.

(** [py_encode_basestring_ascii] *)
Definition encode_basestring_ascii (s : string) : string :=
  String dquote (escape s ++ quote).

Section Encoder.

(** The [indent] argument of [json.dumps]: [None] or a number of
    spaces. *)
Variable indent : option nat.

Definition item_separator : string :=
  match indent with
  | Some _ => ","
  | None => ", "
  end.

Definition key_separator : string := ": ".

Definition newline_indent (level : nat) : string :=
  match indent with
  | Some n => String LF (spaces (n * level))
  | None => EmptyString
  end.

(** [_iterencode], with [_iterencode_list] and [_iterencode_dict] in its
    two last cases; the chunks are joined as [encode] does. *)
Fixpoint iterencode (o : pyval) (level : nat) {struct o} : string :=
  match o with
  | PStr s => encode_basestring_ascii s
  | PNone => "null"
  | PBool true => "true"
  | PBool false => "false"
  | PInt n => Dec.int_repr n
  | PList [] => "[]"
  | PList items =>
      "[" ++ newline_indent (S level)
      ++ String.concat (item_separator ++ newline_indent (S level))
           (map (fun value => iterencode value (S level)) items)
      ++ newline_indent level ++ "]"
  | PDict [] => "{}"
  | PDict items =>
      "{" ++ newline_indent (S level)
      ++ String.concat (item_separator ++ newline_indent (S level))
           (map (fun kv => encode_basestring_ascii (fst kv) ++ key_separator
                           ++ iterencode (snd kv) (S level)) items)
      ++ newline_indent level ++ "}"
  end.

End Encoder.

(** The text [JSONEncoder(indent=indent).encode(obj)] gives when nothing
    raises. *)
Definition encode (indent : option nat) (obj : pyval) : string :=
  iterencode indent obj 0.

(** [int.__repr__], which the encoder calls on an int, raises when the
    number has more digits than the limit allows. *)
Definition int_error {py : Interpreter} (n : Z) : option exn :=
  if negb (Nat.eqb int_max_str_digits 0)
     && Nat.ltb int_max_str_digits (String.length (Dec.int_repr (Z.abs n)))
  then Some (ValueError
               ("Exceeds the limit ("
                ++ Dec.int_repr (Z.of_nat int_max_str_digits)
                ++ " digits) for integer string conversion; "
                ++ "use sys.set_int_max_str_digits() to increase the limit"))
  else None.

(** The first exception of a run of evaluations, in their order. *)
Fixpoint first_error (l : list (option exn)) : option exn :=
  match l with
  | [] => None
  | Some e :: _ => Some e
  | None :: l' => first_error l'
  end.

(** What the encoder raises on a value, if anything: it visits the value
    in order and raises at the first int it cannot print or at the first
    container it has no frame left to enter ([room] counts the containers
    it can still enter); the chunks yielded before are lost with the
    exception. *)
Fixpoint encode_error {py : Interpreter} (o : pyval) (room : nat) {struct o}
  : option exn :=
  match o with
  | PInt n => int_error n
  | PList items =>
      match room with
      | O => Some (RecursionError recursion_text)
      | S room' => first_error (map (fun value => encode_error value room') items)
      end
  | PDict items =>
      match room with
      | O => Some (RecursionError recursion_text)
      | S room' => first_error (map (fun kv => encode_error (snd kv) room') items)
      end
  | _ => None
  end.

(** The containers the encoder can enter.  With [indent] the generators of
    [_make_iterencode] run, a frame for each container.  Without it
    [encode] runs the encoder in one shot and has a frame to spare; the
    handler calls it so on a dict of one str only, which it can then
    always enter. *)
Definition room {py : Interpreter} (indent : option nat) : nat :=
  match indent with
  | Some _ => recursion_budget
  | None => S recursion_budget
  end.

(** [json.dumps(obj, indent=indent)] *)
Definition dumps {py : Interpreter} (indent : option nat) (obj : pyval)
  : outcome string :=
  match encode_error obj (room indent) with
  | Some e => Raises e
  | None => Returns (encode indent obj)
  end.

(** The containers of a value, one inside the other. *)
Fixpoint depth (o : pyval) : nat :=
  match o with
  | PList items => S (list_max (map depth items))
  | PDict items => S (list_max (map (fun kv => depth (snd kv)) items))
  | _ => O
  end.

(** *** The decoder ([json/decoder.py], [json/scanner.py]) *)

Definition is_ws (c : ascii) : bool :=
  match c with
  | " " | "009" | "010" | "013" => true
  | _ => false
  end%char.

(** [WHITESPACE.match(s, end).end()] *)
Fixpoint skip_ws (s : string) : string :=
  match s with
  | EmptyString => EmptyString
  | String c r => if is_ws c then skip_ws r else s
  end.

Definition hex_value (c : ascii) : option N :=
  let n := N_of_ascii c in
  if ((48 <=? n) && (n <=? 57))%N then Some (n - 48)%N
  else if ((97 <=? n) && (n <=? 102))%N then Some (n - 87)%N
  else if ((65 <=? n) && (n <=? 70))%N then Some (n - 55)%N
  else None.

(** [_decode_uXXXX] on the four characters after the [u]. *)
Definition decode_uXXXX (a b c d : ascii) : option N :=
  match hex_value a, hex_value b, hex_value c, hex_value d with
  | Some x, Some y, Some z, Some w => Some (((x * 16 + y) * 16 + z) * 16 + w)%N
  | _, _, _, _ => None
  end.

(** The table [BACKSLASH]. *)
Definition BACKSLASH (c : ascii) : option ascii :=
  match c with
  | "034" => Some "034"
  | "092" => Some "092"
  | "/" => Some "/"
  | "b" => Some "008"
  | "f" => Some "012"
  | "n" => Some "010"
  | "r" => Some "013"
  | "t" => Some "009"
  | _ => None
  end%char.

Definition prepend (c : ascii) (x : option (string * string))
  : option (string * string) :=
  match x with
  | Some (s, r) => Some (String c s, r)
  | None => None
  end.

(** [py_scanstring] in strict mode, from the character after the opening
    quote: the string and the text after the closing quote.  Escapes of
    code points above 255 are outside the model and answer [None]. *)
Fixpoint scanstring (s : string) : option (string * string) :=
  match s with
  | EmptyString => None
  | String c r =>
      if Ascii.eqb c dquote then Some (EmptyString, r)
      else if Ascii.eqb c backslash then
        match r with
        | EmptyString => None
        | String "u" (String h1 (String h2 (String h3 (String h4 r')))) =>
            match decode_uXXXX h1 h2 h3 h4 with
            | Some n =>
                if (n <? 256)%N then prepend (ascii_of_N n) (scanstring r')
                else None
            | None => None
            end
        | String esc r' =>
            match BACKSLASH esc with
            | Some c' => prepend c' (scanstring r')
            | None => None
            end
        end
      else if (N_of_ascii c <? 32)%N then None
      else prepend c (scanstring r)
  end.

(** The digits at the head of a text, and the text after them. *)
Fixpoint scan_digits (s : string) : Decimal.uint * string :=
  match s with
  | EmptyString => (Nil, EmptyString)
  | String c r =>
      if is_digit c then
        let (u, r') := scan_digits r in
        match uint_of_char c (Some u) with
        | Some u' => (u', r')
        | None => (Nil, s)
        end
      else (Nil, s)
  end.

(** Whether the text goes on with the fraction or the exponent of
    [NUMBER_RE]. *)
Definition starts_fraction (s : string) : bool :=
  match s with
  | String "." (String c _) => is_digit c
  | _ => false
  end.

Definition starts_exponent (s : string) : bool :=
  match s with
  | String ("e" | "E") (String ("+" | "-") (String c _)) => is_digit c
  | String ("e" | "E") (String c _) => is_digit c
  | _ => false
  end.

(** [NUMBER_RE.match]: an int and the text after it; a number with a
    fraction or an exponent is a float, left out of the model. *)
Definition match_number (s : string) : option (Z * string) :=
  let (negative, s1) :=
    match s with
    | String "-" r => (true, r)
    | _ => (false, s)
    end in
  match s1 with
  | EmptyString => None
  | String c r =>
      if is_digit c then
        let (u, r') := if Ascii.eqb c "0" then (D0 Nil, r) else scan_digits s1 in
        if starts_fraction r' || starts_exponent r' then None
        else Some (if negative then (- Z.of_uint u)%Z else Z.of_uint u, r')
      else None
  end.

(** The three literals of [scan_once]. *)
Definition match_literal (s : string) : option (pyval * string) :=
  match s with
  | String "n" (String "u" (String "l" (String "l" r))) => Some (PNone, r)
  | String "t" (String "r" (String "u" (String "e" r))) => Some (PBool true, r)
  | String "f" (String "a" (String "l" (String "s" (String "e" r)))) =>
      Some (PBool false, r)
  | _ => None
  end.

(** [scan_once], [JSONObject] (from the first key) and [JSONArray] (from
    the first item).  The recursion of the decoder follows the text, so the
    functions take the number of calls they may still make. *)
Fixpoint scan_once (fuel : nat) (s : string) {struct fuel}
  : option (pyval * string) :=
  match fuel with
  | O => None
  | S fuel' =>
      match s with
      | EmptyString => None
      | String nextchar r =>
          if Ascii.eqb nextchar dquote then
            match scanstring r with
            | Some (k, r') => Some (PStr k, r')
            | None => None
            end
          else if Ascii.eqb nextchar "{" then
            match skip_ws r with
            | EmptyString => None
            | String c r' =>
                if Ascii.eqb c "}" then Some (PDict [], r')
                else
                  match JSONObject fuel' (String c r') with
                  | Some (pairs, r2) => Some (PDict (dict_of_pairs pairs), r2)
                  | None => None
                  end
            end
          else if Ascii.eqb nextchar "[" then
            match skip_ws r with
            | EmptyString => None
            | String c r' =>
                if Ascii.eqb c "]" then Some (PList [], r')
                else
                  match JSONArray fuel' (String c r') with
                  | Some (values, r2) => Some (PList values, r2)
                  | None => None
                  end
            end
          else
            match match_literal s with
            | Some x => Some x
            | None =>
                match match_number s with
                | Some (n, r') => Some (PInt n, r')
                | None => None
                end
            end
      end
  end

with JSONObject (fuel : nat) (s : string) {struct fuel}
  : option (list (string * pyval) * string) :=
  match fuel with
  | O => None
  | S fuel' =>
      match s with
      | EmptyString => None
      | String nextchar r =>
          if Ascii.eqb nextchar dquote then
            match scanstring r with
            | Some (key, r1) =>
                match skip_ws r1 with
                | EmptyString => None
                | String c r2 =>
                    if Ascii.eqb c ":" then
                      match scan_once fuel' (skip_ws r2) with
                      | Some (value, r3) =>
                          match skip_ws r3 with
                          | EmptyString => None
                          | String c' r4 =>
                              if Ascii.eqb c' "}" then Some ([(key, value)], r4)
                              else if Ascii.eqb c' "," then
                                match JSONObject fuel' (skip_ws r4) with
                                | Some (pairs, r5) => Some ((key, value) :: pairs, r5)
                                | None => None
                                end
                              else None
                          end
                      | None => None
                      end
                    else None
                end
            | None => None
            end
          else None
      end
  end

with JSONArray (fuel : nat) (s : string) {struct fuel}
  : option (list pyval * string) :=
  match fuel with
  | O => None
  | S fuel' =>
      match scan_once fuel' s with
      | Some (value, r1) =>
          match skip_ws r1 with
          | EmptyString => None
          | String c r2 =>
              if Ascii.eqb c "]" then Some ([value], r2)
              else if Ascii.eqb c "," then
                match JSONArray fuel' (skip_ws r2) with
                | Some (values, r3) => Some (value :: values, r3)
                | None => None
                end
              else None
          end
      | None => None
      end
  end.

(** [json.loads(s)]: one value between optional white space, and nothing
    after it.  No call of the decoder goes without reading a character, so
    the length of the text bounds their number. *)
Definition loads (s : string) : option pyval :=
  match scan_once (S (String.length s)) (skip_ws s) with
  | Some (obj, r) =>
      match skip_ws r with
      | EmptyString => Some obj
      | String _ _ => None
      end
  | None => None
  end.

End Json.


(* ================================================================= *)
(** ** The runtime: environment, clock, S3 client, standard output *)

Module Runtime.

Import Datetime Python.

(** The keyword arguments of [s3.put_object]. *)
Record put_request : Type := mkPut {
  Bucket : string;
  Key : string;
  Body : string;
  ContentType : string
}.

(** What an invocation does to the outside, in order. *)
Inductive effect : Type :=
| Utcnow (now : datetime)
| PutObject (request : put_request) (raised : option exn)
| Printed (line : string).

(** The outside of the handler: [os.environ], the clock as the sequence of
    the instants its successive readings give, the number of readings made
    so far, and what the S3 client answers to a request ([None]: the call
    returns; [Some e]: it raises [e]). *)
Record world : Type := mkWorld {
  environ : string -> option string;
  clock : nat -> datetime;
  ticks : nat;
  s3_put_object : put_request -> option exn
}.

(** A computation: from a world to an outcome, the world after it and the
    effects it had. *)
Definition M (A : Type) : Type := world -> outcome A * world * list effect.

Definition ret {A : Type} (a : A) : M A := fun w => (Returns a, w, []).

Definition raise {A : Type} (e : exn) : M A := fun w => (Raises e, w, []).

(** An expression without effect on the outside, which may raise. *)
Definition evaluate {A : Type} (o : outcome A) : M A := fun w => (o, w, []).

Definition bind {A B : Type} (m : M A) (k : A -> M B) : M B :=
  fun w =>
    match m w with
    | (Returns a, w1, t1) =>
        match k a w1 with
        | (r, w2, t2) => (r, w2, t1 ++ t2)
        end
    | (Raises e, w1, t1) => (Raises e, w1, t1)
    end%list.

(** [try: body  except Exception as e: handle(e)]: an exception that is
    no instance of [Exception] goes through. *)
Definition try_except {A : Type} (body : M A) (handle : exn -> M A) : M A :=
  fun w =>
    match body w with
    | (Returns a, w1, t1) => (Returns a, w1, t1)
    | (Raises e, w1, t1) =>
        if isinstance e "Exception" then
          match handle e w1 with
          | (r, w2, t2) => (r, w2, t1 ++ t2)
          end
        else (Raises e, w1, t1)
    end%list.

(** [os.environ.get(name)] *)
Definition os_environ_get (name : string) : M (option string) :=
  fun w => (Returns (environ w name), w, []).

(** [datetime.utcnow()]: the next reading of the clock. *)
Definition utcnow : M datetime :=
  fun w =>
    let now := clock w (ticks w) in
    (Returns now,
     mkWorld (environ w) (clock w) (S (ticks w)) (s3_put_object w),
     [Utcnow now]).

(** [s3.put_object(Bucket=..., Key=..., Body=..., ContentType=...)] *)
Definition put_object (request : put_request) : M unit :=
  fun w =>
    match s3_put_object w request with
    | None => (Returns tt, w, [PutObject request None])
    | Some e => (Raises e, w, [PutObject request (Some e)])
    end.

(** [print(line)] *)
Definition print (line : string) : M unit :=
  fun w => (Returns tt, w, [Printed line]).

Declare Scope py_scope.
Delimit Scope py_scope with py.

Notation "x <- m ;; k" := (bind m (fun x => k))
  (at level 61, m at next level, right associativity) : py_scope.
Notation "m ;; k" := (bind m (fun _ => k))
  (at level 61, right associativity) : py_scope.

(** Observations on a trace. *)
Definition put_requests (t : list effect) : list (put_request * option exn) :=
  flat_map (fun e => match e with PutObject r x => [(r, x)] | _ => [] end) t.

Definition clock_reads (t : list effect) : list datetime :=
  flat_map (fun e => match e with Utcnow d => [d] | _ => [] end) t.

(** The objects a trace leaves in the store: the requests that returned. *)
Definition objects_written (t : list effect) : list put_request :=
  flat_map (fun e => match e with PutObject r None => [r] | _ => [] end) t.

(** The lines a trace prints. *)
Definition printed_lines (t : list effect) : list string :=
  flat_map (fun e => match e with Printed line => [line] | _ => [] end) t.

End Runtime.

(* ================================================================= *)
(** ** [src/lambda/handler.py] *)

Module Handler.

Import Json Datetime Python Runtime.
#[local] Open Scope py_scope.

(** [handler(event, context)].  The context is never read; it can be of
    any type.  The arguments of [s3.put_object] are evaluated before the
    call, so the [json.dumps] of line 37 comes before the write, and the
    one of line 45 after the [print] of line 41. *)
Definition handler {py : Interpreter} {Ctx : Type} (event : pyval) (context : Ctx)
  : M pyval :=
  try_except
    (bucket_name <- os_environ_get "BUCKET_NAME" ;;
     match bucket_name with
     | None | Some EmptyString =>
         raise (ValueError "BUCKET_NAME environment variable not set")
     | Some bucket_name =>
         now <- utcnow ;;
         let response_data :=
           PDict [("message", PStr "Hello from Lambda!");
                  ("timestamp", PStr (isoformat now));
                  ("event", event);
                  ("bucket", PStr bucket_name)] in
         now' <- utcnow ;;
         let s3_key :=
           "lambda-executions/" ++ strftime now' "%Y-%m-%d/%H-%M-%S" ++ ".json" in
         body <- evaluate (dumps (Some 2) response_data) ;;
         put_object (mkPut bucket_name s3_key body "application/json") ;;
         print ("Successfully wrote data to s3://" ++ bucket_name ++ "/" ++ s3_key) ;;
         text <- evaluate
                   (dumps (Some 2)
                      (PDict [("message", PStr "Success!");
                              ("data", response_data);
                              ("s3_location",
                               PStr ("s3://" ++ bucket_name ++ "/" ++ s3_key))])) ;;
         ret (PDict
           [("statusCode", PInt 200);
            ("body", PStr text);
            ("headers", PDict [("Content-Type", PStr "application/json")])])
     end)
    (fun e =>
       let error_message := "Error: " ++ str e in
       print error_message ;;
       text <- evaluate (dumps None (PDict [("error", PStr error_message)])) ;;
       ret (PDict
         [("statusCode", PInt 500);
          ("body", PStr text);
          ("headers", PDict [("Content-Type", PStr "application/json")])])).

(** *** Observing a run *)

(** The result of a run, when the handler returns. *)
Definition returned {A : Type} (r : outcome A * world * list effect) : option A :=
  match r with
  | (Returns a, _, _) => Some a
  | (Raises _, _, _) => None
  end.

Definition trace {A : Type} (r : outcome A * world * list effect) : list effect :=
  snd r.

Definition world_after {A : Type} (r : outcome A * world * list effect) : world :=
  snd (fst r).

(** [response['statusCode']] *)
Definition statusCode (response : pyval) : option pyval := get "statusCode" response.

(** [json.loads(response['body'])] *)
Definition decoded_body (response : pyval) : option pyval :=
  match get "body" response with
  | Some (PStr text) => loads text
  | _ => None
  end.


End Handler.


(* ================================================================= *)
(** ** Notions for the proofs about [json] *)

Module JsonAux.

Import Str Json.

(** The separator of items is a comma, then white space. *)
Definition after_comma (indent : option nat) : string :=
  match indent with
  | Some _ => EmptyString
  | None => " "
  end.

(** The characters an encoded value can start with. *)
Definition value_start (c : ascii) : bool :=
  (is_digit c
   || match c with
      | "034" | "{" | "[" | "n" | "t" | "f" | "-" => true
      | _ => false
      end)%char.

Definition starts_value (s : string) : bool :=
  match s with
  | EmptyString => false
  | String c _ => value_start c
  end.

(** The characters that follow an encoded value: the end of the text, a
    comma, a closing bracket or brace, white space. *)
Definition value_end (s : string) : bool :=
  match s with
  | EmptyString => true
  | String c _ =>
      (is_ws c || match c with "," | "]" | "}" => true | _ => false end)%char
  end.

(** A numeral that does not start with a zero. *)
Definition leading_nonzero (u : Decimal.uint) : bool :=
  match u with
  | Nil | D0 _ => false
  | _ => true
  end.

(** A key and its value, as [_iterencode_dict] writes them. *)
Definition encode_member (indent : option nat) (level : nat) (kv : string * pyval) : string :=
  encode_basestring_ascii (fst kv) ++ key_separator
  ++ iterencode indent (snd kv) (S level).

(** The calls of the decoder that reading a value back takes. *)
Fixpoint fuel_of (o : pyval) : nat :=
  match o with
  | PList items => S (list_sum (map (fun v => S (fuel_of v)) items))
  | PDict items => S (list_sum (map (fun kv => S (fuel_of (snd kv))) items))
  | _ => 1
  end.

(** [scan_once] reads an encoded value back, whatever follows it. *)
Definition decodes (indent : option nat) (v : pyval) : Prop :=
  forall (level fuel : nat) (rest : string),
    fuel_of v <= fuel -> value_end rest = true ->
    scan_once fuel (iterencode indent v level ++ rest) = Some (v, rest).

End JsonAux.

(* ================================================================= *)
(** ** What a run of the handler computes *)

Module Run.

Import Json Datetime Python Runtime.

Section Computed.

Variable w : world.
Variable event : pyval.

(** The two readings of the clock: [utcnow()] of line 26, then of line 32. *)
Definition first_reading : datetime := clock w (ticks w).
Definition second_reading : datetime := clock w (S (ticks w)).

(** [response_data] *)
Definition response_data (bucket_name : string) : pyval :=
  PDict [("message", PStr "Hello from Lambda!");
         ("timestamp", PStr (isoformat first_reading));
         ("event", event);
         ("bucket", PStr bucket_name)].

(** [s3_key] *)
Definition s3_key : string :=
  "lambda-executions/" ++ strftime second_reading "%Y-%m-%d/%H-%M-%S" ++ ".json".

(** The arguments of the call of [s3.put_object], when line 37 gave its
    text. *)
Definition request (bucket_name : string) : put_request :=
  mkPut bucket_name s3_key (encode (Some 2) (response_data bucket_name))
        "application/json".

(** The dict that the success envelope carries in its body. *)
Definition success_body (bucket_name : string) : pyval :=
  PDict [("message", PStr "Success!");
         ("data", response_data bucket_name);
         ("s3_location", PStr ("s3://" ++ bucket_name ++ "/" ++ s3_key))].

(** The success envelope, when line 45 gave its text. *)
Definition success_response (bucket_name : string) : pyval :=
  PDict [("statusCode", PInt 200);
         ("body", PStr (encode (Some 2) (success_body bucket_name)));
         ("headers", PDict [("Content-Type", PStr "application/json")])].

(** The line that line 41 prints. *)
Definition success_line (bucket_name : string) : string :=
  "Successfully wrote data to s3://" ++ bucket_name ++ "/" ++ s3_key.

(** [error_message] *)
Definition error_message (e : exn) : string := "Error: " ++ str e.

Definition failure_body (e : exn) : pyval :=
  PDict [("error", PStr (error_message e))].

Definition failure_response (e : exn) : pyval :=
  PDict [("statusCode", PInt 500);
         ("body", PStr (encode None (failure_body e)));
         ("headers", PDict [("Content-Type", PStr "application/json")])].

(** The world after the two readings. *)
Definition read_twice : world :=
  mkWorld (environ w) (clock w) (S (S (ticks w))) (s3_put_object w).

End Computed.

(** Whether [os.environ.get('BUCKET_NAME')] is truthy. *)
Definition configured (w : world) : option string :=
  match environ w "BUCKET_NAME" with
  | None | Some EmptyString => None
  | Some bucket_name => Some bucket_name
  end.

(** The configuration and the event of the scenario of the spec, and a
    clock that stands still at its instant. *)
Definition scenario_world : world :=
  mkWorld (fun name => if String.eqb name "BUCKET_NAME" then Some "my-bucket" else None)
          (fun _ => mkDatetime 2024 1 2 3 4 5 0)
          0
          (fun _ => None).

Definition scenario_event : pyval := PDict [("foo", PStr "bar")].

(** A world without BUCKET_NAME. *)
Definition unconfigured_world : world :=
  mkWorld (fun _ => None) (fun _ => mkDatetime 2024 1 2 3 4 5 0) 0 (fun _ => None).

(** A world whose S3 client denies the write. *)
Definition denied : exn :=
  mkExn "ClientError" ["Exception"; "BaseException"]
        "An error occurred (AccessDenied) when calling the PutObject operation: Access Denied".

Definition denying_world : world :=
  mkWorld (fun name => if String.eqb name "BUCKET_NAME" then Some "my-bucket" else None)
          (fun _ => mkDatetime 2024 1 2 3 4 5 0)
          0
          (fun _ => Some denied).

(** A world in which the host interrupts the write. *)
Definition interrupted_world : world :=
  mkWorld (fun name => if String.eqb name "BUCKET_NAME" then Some "my-bucket" else None)
          (fun _ => mkDatetime 2024 1 2 3 4 5 0)
          0
          (fun _ => Some KeyboardInterrupt).

(** A world whose clock passes a second between its first two readings. *)
Definition ticking_world : world :=
  mkWorld (fun name => if String.eqb name "BUCKET_NAME" then Some "my-bucket" else None)
          (fun n => match n with
                    | O => mkDatetime 2024 1 2 3 4 5 999999
                    | S _ => mkDatetime 2024 1 2 3 4 6 1
                    end)
          0
          (fun _ => None).

(** [[[...[None]...]]]: lists one inside the other, [n] deep. *)
Fixpoint nested (n : nat) : pyval :=
  match n with
  | O => PNone
  | S k => PList [nested k]
  end.

(** An event that the record can hold within the default budget, but not
    the body of the envelope, which holds the record one container
    deeper. *)
Definition deep_event : pyval := nested 989.

(** An event one container too deep for the record itself. *)
Definition deeper_event : pyval := nested 990.

(** [10 ** 4300]: an int of 4301 digits. *)
Definition long_int_event : pyval := PInt (10 ^ 4300).

End Run.

(* ================================================================= *)
(** ** Further notions about runs *)

Module Observations.

Import Str Json Datetime Python Runtime Handler.
#[local] Open Scope py_scope.

(** The ASCII characters that print: from the space to the tilde. *)
Definition printable (c : ascii) : bool :=
  ((32 <=? N_of_ascii c) && (N_of_ascii c <=? 126))%N.

Definition printable_or_LF (c : ascii) : bool :=
  printable c || Ascii.eqb c LF.

(** The characters of a text of [json.dumps]: printable ones without
    [indent], line feeds too with it. *)
Definition layout (indent : option nat) : ascii -> bool :=
  match indent with
  | Some _ => printable_or_LF
  | None => printable
  end.

(** [all(p(c) for c in s)] *)
Fixpoint all_chars (p : ascii -> bool) (s : string) : bool :=
  match s with
  | EmptyString => true
  | String c r => p c && all_chars p r
  end.





(** Two worlds that give the same bucket name, the same next two readings
    of the clock and the same answers of the S3 client. *)
Definition agree (w w' : world) : Prop :=
  environ w "BUCKET_NAME" = environ w' "BUCKET_NAME"
  /\ clock w (ticks w) = clock w' (ticks w')
  /\ clock w (S (ticks w)) = clock w' (S (ticks w'))
  /\ (forall request, s3_put_object w request = s3_put_object w' request).

(** A world with more in its environment than BUCKET_NAME and seven
    readings of the clock already taken; the clock passes to the next second
    after the ninth reading. *)
Definition busy_world : world :=
  mkWorld (fun name =>
             if String.eqb name "BUCKET_NAME" then Some "my-bucket"
             else if String.eqb name "AWS_REGION" then Some "eu-west-1"
             else None)
          (fun n => mkDatetime 2024 1 2 3 4 (if Nat.ltb n 9 then 5 else 6) 0)
          7
          (fun _ => None).

End Observations.

(* ================================================================= *)
(** * Facts *)

(** ** Strings *)

Module StrFacts.

Import Str.

Lemma append_assoc (a b c : string) : (a ++ b) ++ c = a ++ (b ++ c).
Proof.
  induction a as [|x a IH]; simpl; [reflexivity|].
  now rewrite IH.
Qed.

Lemma append_nil_r (a : string) : a ++ EmptyString = a.
Proof.
  induction a as [|x a IH]; simpl; [reflexivity|].
  now rewrite IH.
Qed.

Lemma length_append (a b : string) :
  String.length (a ++ b) = String.length a + String.length b.
Proof.
  induction a as [|x a IH]; simpl; [reflexivity|].
  now rewrite IH.
Qed.

Lemma prefix_append (p s : string) : String.prefix p (p ++ s) = true.
Proof.
  induction p as [|x p IH]; simpl.
  - now destruct s.
  - destruct (ascii_dec x x) as [_|n]; [exact IH | now elim n].
Qed.

Lemma contains_prefix (p s : string) :
  String.prefix p s = true -> contains p s = true.
Proof.
  intros H. destruct s; cbn [contains]; rewrite H; reflexivity.
Qed.

Lemma contains_append_l (p a s : string) :
  contains p s = true -> contains p (a ++ s) = true.
Proof.
  intros H. induction a as [|x a IH]; simpl; [exact H|].
  rewrite IH. apply orb_true_r.
Qed.

Lemma contains_append_r (p s b : string) :
  contains p (s ++ p ++ b) = true.
Proof.
  apply contains_append_l, contains_prefix, prefix_append.
Qed.

Lemma prefix_refl (p : string) : String.prefix p p = true.
Proof.
  assert (H := prefix_append p EmptyString). now rewrite append_nil_r in H.
Qed.

Lemma contains_suffix (p a : string) : contains p (a ++ p) = true.
Proof.
  apply contains_append_l, contains_prefix, prefix_refl.
Qed.

End StrFacts.

(** ** Decimal numerals *)

Module DecFacts.

Import Dec.

Example zero_padded_7 : zero_padded 2 7 = "07".
Proof. reflexivity. Qed.

Example zero_padded_2024 : zero_padded 4 2024 = "2024".
Proof. reflexivity. Qed.

Example zero_padded_wide : zero_padded 2 123 = "123".
Proof. reflexivity. Qed.

(** A property checked on every number below a bound holds below it. *)
Lemma below_bound (f : Z -> bool) (k : nat) :
  forallb (fun i => f (Z.of_nat i)) (seq 0 k) = true ->
  forall z : Z, (0 <= z < Z.of_nat k)%Z -> f z = true.
Proof.
  intros H z Hz.
  rewrite forallb_forall in H.
  specialize (H (Z.to_nat z)).
  rewrite Z2Nat.id in H by lia.
  apply H, in_seq. lia.
Qed.

Lemma two_digits (z : Z) :
  (0 <= z < 100)%Z -> is_digits 2 (zero_padded 2 z) = true.
Proof.
  apply (below_bound (fun z => is_digits 2 (zero_padded 2 z)) 100).
  vm_compute. reflexivity.
Qed.

Lemma four_digits (z : Z) :
  (0 <= z < 10000)%Z -> is_digits 4 (zero_padded 4 z) = true.
Proof.
  apply (below_bound (fun z => is_digits 4 (zero_padded 4 z)) (100 * 100)).
  vm_compute. reflexivity.
Qed.

End DecFacts.

(** ** Formatting instants *)

Module DatetimeFacts.

Import Datetime.

Example strftime_scenario :
  strftime (mkDatetime 2024 1 2 3 4 5 0) "%Y-%m-%d/%H-%M-%S" = "2024-01-02/03-04-05".
Proof. reflexivity. Qed.

Example isoformat_scenario :
  isoformat (mkDatetime 2024 1 2 3 4 5 0) = "2024-01-02T03:04:05".
Proof. reflexivity. Qed.

Example isoformat_fraction :
  isoformat (mkDatetime 2024 1 2 3 4 5 999) = "2024-01-02T03:04:05.000999".
Proof. reflexivity. Qed.

Lemma strftime_key_format (d : datetime) :
  strftime d "%Y-%m-%d/%H-%M-%S" = date_YYYY_MM_DD d ++ "/" ++ time_HH_MM_SS d.
Proof.
  unfold date_YYYY_MM_DD, time_HH_MM_SS. cbn [strftime directive].
  rewrite StrFacts.append_nil_r.
  repeat (rewrite ?StrFacts.append_assoc; cbn [String.append]).
  reflexivity.
Qed.

Lemma valid_ranges (d : datetime) :
  valid d = true ->
  (0 <= year d < 10000 /\ 0 <= month d < 100 /\ 0 <= day d < 100
   /\ 0 <= hour d < 100 /\ 0 <= minute d < 100 /\ 0 <= second d < 100)%Z.
Proof.
  unfold valid, days_in_month. intros H.
  repeat (apply andb_true_iff in H; destruct H as [H ?]).
  assert (day d <= 31)%Z.
  { destruct (month d =? 2)%Z; [destruct (is_leap (year d))|
      destruct ((month d =? 4) || (month d =? 6) || (month d =? 9) || (month d =? 11))%Z];
    lia. }
  lia.
Qed.

Lemma date_time_digits (d : datetime) :
  valid d = true -> is_date (date_YYYY_MM_DD d) /\ is_time (time_HH_MM_SS d).
Proof.
  intros Hv. apply valid_ranges in Hv.
  destruct Hv as (Hyear & Hmonth & Hday & Hhour & Hminute & Hsecond).
  split.
  - exists (Dec.zero_padded 4 (year d)), (Dec.zero_padded 2 (month d)),
           (Dec.zero_padded 2 (day d)).
    repeat split; try (now apply DecFacts.two_digits); now apply DecFacts.four_digits.
  - exists (Dec.zero_padded 2 (hour d)), (Dec.zero_padded 2 (minute d)),
           (Dec.zero_padded 2 (second d)).
    repeat split; now apply DecFacts.two_digits.
Qed.

End DatetimeFacts.

(** ** The decoder reads back what the encoder writes *)

Module JsonFacts.

Import Str StrFacts Json JsonAux.

(** *** White space *)

Lemma skip_ws_spaces (n : nat) (s : string) : skip_ws (spaces n ++ s) = skip_ws s.
Proof.
  induction n as [|n IH]; simpl; [reflexivity | exact IH].
Qed.

Lemma skip_ws_newline_indent (indent : option nat) (level : nat) (s : string) :
  skip_ws (newline_indent indent level ++ s) = skip_ws s.
Proof.
  destruct indent as [n|]; simpl; [apply skip_ws_spaces | reflexivity].
Qed.

Lemma item_separator_comma (indent : option nat) :
  item_separator indent = String "," (after_comma indent).
Proof. now destruct indent. Qed.

Lemma skip_ws_after_comma (indent : option nat) (s : string) :
  skip_ws (after_comma indent ++ s) = skip_ws s.
Proof. now destruct indent. Qed.

(** *** Where a value starts and where it ends *)

Lemma value_start_facts (c : ascii) :
  value_start c = true ->
  is_ws c = false /\ Ascii.eqb c "]" = false /\ Ascii.eqb c "}" = false.
Proof.
  destruct c as [[] [] [] [] [] [] [] []]; try discriminate; now intros _.
Qed.

Lemma skip_ws_starts_value (s : string) : starts_value s = true -> skip_ws s = s.
Proof.
  destruct s as [|c r]; [discriminate|]. simpl. intros H.
  apply value_start_facts in H. destruct H as [-> _]. reflexivity.
Qed.

Lemma starts_value_append (a b : string) :
  starts_value a = true -> starts_value (a ++ b) = true.
Proof. destruct a; [discriminate | trivial]. Qed.

Lemma value_end_newline_indent (indent : option nat) (level : nat) (c : ascii) (s : string) :
  value_end (String c s) = true ->
  value_end (newline_indent indent level ++ String c s) = true.
Proof. destruct indent; trivial. Qed.

(** *** Strings *)

Lemma scanstring_escape_char (c : ascii) (r : string) :
  scanstring (escape_char c ++ r) = prepend c (scanstring r).
Proof.
  destruct c as [[] [] [] [] [] [] [] []]; reflexivity.
Qed.

Lemma scanstring_escape (s rest : string) :
  scanstring (escape s ++ String dquote rest) = Some (s, rest).
Proof.
  induction s as [|c s IH]; [reflexivity|].
  cbn [escape]. rewrite append_assoc, scanstring_escape_char, IH. reflexivity.
Qed.

Lemma scanstring_encoded (s rest : string) :
  scanstring ((escape s ++ quote) ++ rest) = Some (s, rest).
Proof.
  rewrite append_assoc. apply scanstring_escape.
Qed.

(** *** Integers *)

Lemma to_uint_leading_nonzero (p : positive) : leading_nonzero (Pos.to_uint p) = true.
Proof.
  assert (Hn : unorm (Pos.to_uint p) = Pos.to_uint p).
  { rewrite <- (DecimalPos.Unsigned.to_of (Pos.to_uint p)).
    now rewrite DecimalPos.Unsigned.of_to. }
  assert (Hz := DecimalPos.Unsigned.to_uint_nonzero p).
  assert (Hnil := DecimalPos.Unsigned.to_uint_nonnil p).
  destruct (Pos.to_uint p) as [|u|u|u|u|u|u|u|u|u|u]; try reflexivity.
  - now elim Hnil.
  - exfalso. rewrite DecimalFacts.unorm_D0 in Hn.
    destruct u as [|u|u|u|u|u|u|u|u|u|u]; try (now elim Hz);
      match type of Hn with
      | unorm ?d = _ =>
          assert (Hd : d <> Nil) by discriminate;
          assert (Hle := DecimalFacts.nb_digits_unorm d Hd);
          rewrite Hn in Hle; simpl in Hle; lia
      end.
Qed.

Lemma value_end_no_digit (s : string) :
  value_end s = true ->
  scan_digits s = (Nil, s) /\ starts_fraction s = false /\ starts_exponent s = false.
Proof.
  destruct s as [|c r]; [now intros _|].
  destruct c as [[] [] [] [] [] [] [] []]; try discriminate; now intros _.
Qed.

Lemma scan_digits_numeral (u : Decimal.uint) (rest : string) :
  value_end rest = true ->
  scan_digits (NilEmpty.string_of_uint u ++ rest) = (u, rest).
Proof.
  intros H. induction u; cbn [NilEmpty.string_of_uint String.append scan_digits is_digit];
    try (rewrite IHu; reflexivity).
  now apply value_end_no_digit.
Qed.

Lemma match_number_numeral (negative : bool) (p : positive) (rest : string) :
  value_end rest = true ->
  match_number ((if negative then "-" else EmptyString)
                ++ NilEmpty.string_of_uint (Pos.to_uint p) ++ rest)
  = Some (if negative then Zneg p else Zpos p, rest).
Proof.
  intros H.
  assert (Hv : Z.of_uint (Pos.to_uint p) = Zpos p).
  { unfold Z.of_uint. now rewrite DecimalPos.Unsigned.of_to. }
  assert (Hl := to_uint_leading_nonzero p).
  assert (Hs := scan_digits_numeral (Pos.to_uint p) rest H).
  destruct (value_end_no_digit rest H) as (_ & Hf & He).
  destruct negative;
    (destruct (Pos.to_uint p) as [|u|u|u|u|u|u|u|u|u|u]; try discriminate;
     cbn [NilEmpty.string_of_uint String.append] in *;
     unfold match_number; cbn [is_digit Ascii.eqb Bool.eqb];
     rewrite Hs, Hf, He, Hv; reflexivity).
Qed.

Lemma match_number_repr (z : Z) (rest : string) :
  value_end rest = true ->
  match_number (Dec.int_repr z ++ rest) = Some (z, rest).
Proof.
  intros H. destruct z as [|p|p].
  - destruct (value_end_no_digit rest H) as (_ & Hf & He).
    unfold match_number. simpl. rewrite Hf, He. reflexivity.
  - exact (match_number_numeral false p rest H).
  - exact (match_number_numeral true p rest H).
Qed.

(** *** Dicts *)

Lemma existsb_eqb_In (k : string) (l : list string) :
  existsb (String.eqb k) l = false -> ~ In k l.
Proof.
  induction l as [|x l IH]; simpl; [tauto|].
  intros H. apply orb_false_iff in H. destruct H as [Hx Hl].
  apply String.eqb_neq in Hx. intros [E|E]; [now elim Hx | now apply IH].
Qed.

Lemma dict_set_fresh (d : list (string * pyval)) (k : string) (v : pyval) :
  ~ In k (map fst d) -> dict_set d k v = (d ++ [(k, v)])%list.
Proof.
  induction d as [|[k' v'] d IH]; simpl; [reflexivity|].
  intros H. destruct (String.eqb_spec k k') as [E|E].
  - elim H. now left.
  - rewrite IH; [reflexivity|]. intros Hin. apply H. now right.
Qed.

Lemma dict_of_pairs_fresh (l acc : list (string * pyval)) :
  distinct (map fst l) = true ->
  (forall k, In k (map fst l) -> ~ In k (map fst acc)) ->
  fold_left (fun d kv => dict_set d (fst kv) (snd kv)) l acc = (acc ++ l)%list.
Proof.
  revert acc. induction l as [|[k v] l IH]; intros acc Hd Hacc; simpl.
  - now rewrite List.app_nil_r.
  - simpl in Hd. apply andb_true_iff in Hd. destruct Hd as [Hk Hd].
    apply negb_true_iff, existsb_eqb_In in Hk.
    rewrite dict_set_fresh by (apply Hacc; now left).
    rewrite IH; [now rewrite <- List.app_assoc | exact Hd |].
    intros k' Hin. rewrite List.map_app, List.in_app_iff. simpl.
    intros [Hin'|[E|[]]].
    + apply (Hacc k'); [now right | exact Hin'].
    + subst k'. now apply Hk.
Qed.

Lemma dict_of_pairs_distinct (l : list (string * pyval)) :
  distinct (map fst l) = true -> dict_of_pairs l = l.
Proof.
  intros H. unfold dict_of_pairs.
  now rewrite dict_of_pairs_fresh by (trivial || (intros ? _ [])).
Qed.

(** *** The equations of the decoder *)

Lemma scan_once_string (fuel : nat) (r : string) :
  scan_once (S fuel) (String dquote r)
  = match scanstring r with
    | Some (k, r') => Some (PStr k, r')
    | None => None
    end.
Proof. reflexivity. Qed.

Lemma scan_once_array (fuel : nat) (r : string) :
  scan_once (S fuel) (String "[" r)
  = match skip_ws r with
    | EmptyString => None
    | String c r' =>
        if Ascii.eqb c "]" then Some (PList [], r')
        else
          match JSONArray fuel (String c r') with
          | Some (values, r2) => Some (PList values, r2)
          | None => None
          end
    end.
Proof. reflexivity. Qed.

Lemma scan_once_object (fuel : nat) (r : string) :
  scan_once (S fuel) (String "{" r)
  = match skip_ws r with
    | EmptyString => None
    | String c r' =>
        if Ascii.eqb c "}" then Some (PDict [], r')
        else
          match JSONObject fuel (String c r') with
          | Some (pairs, r2) => Some (PDict (dict_of_pairs pairs), r2)
          | None => None
          end
    end.
Proof. reflexivity. Qed.

Lemma scan_once_number (fuel : nat) (c : ascii) (r : string) :
  is_digit c || Ascii.eqb c "-" = true ->
  scan_once (S fuel) (String c r)
  = match match_number (String c r) with
    | Some (n, r') => Some (PInt n, r')
    | None => None
    end.
Proof.
  destruct c as [[] [] [] [] [] [] [] []]; try discriminate; intros _; reflexivity.
Qed.

Lemma JSONArray_step (fuel : nat) (s : string) :
  JSONArray (S fuel) s
  = match scan_once fuel s with
    | Some (value, r1) =>
        match skip_ws r1 with
        | EmptyString => None
        | String c r2 =>
            if Ascii.eqb c "]" then Some ([value], r2)
            else if Ascii.eqb c "," then
              match JSONArray fuel (skip_ws r2) with
              | Some (values, r3) => Some (value :: values, r3)
              | None => None
              end
            else None
        end
    | None => None
    end.
Proof. reflexivity. Qed.

Lemma JSONObject_step (fuel : nat) (r : string) :
  JSONObject (S fuel) (String dquote r)
  = match scanstring r with
    | Some (key, r1) =>
        match skip_ws r1 with
        | EmptyString => None
        | String c r2 =>
            if Ascii.eqb c ":" then
              match scan_once fuel (skip_ws r2) with
              | Some (value, r3) =>
                  match skip_ws r3 with
                  | EmptyString => None
                  | String c' r4 =>
                      if Ascii.eqb c' "}" then Some ([(key, value)], r4)
                      else if Ascii.eqb c' "," then
                        match JSONObject fuel (skip_ws r4) with
                        | Some (pairs, r5) => Some ((key, value) :: pairs, r5)
                        | None => None
                        end
                      else None
                  end
              | None => None
              end
            else None
        end
    | None => None
    end.
Proof. reflexivity. Qed.

(** *** The equations of the encoder *)

Section Encoded.

Variable indent : option nat.

Lemma iterencode_list (x : pyval) (xs : list pyval) (level : nat) :
  iterencode indent (PList (x :: xs)) level
  = "[" ++ newline_indent indent (S level)
    ++ String.concat (item_separator indent ++ newline_indent indent (S level))
         (map (fun value => iterencode indent value (S level)) (x :: xs))
    ++ newline_indent indent level ++ "]".
Proof. reflexivity. Qed.

Lemma iterencode_dict (kv : string * pyval) (kvs : list (string * pyval)) (level : nat) :
  iterencode indent (PDict (kv :: kvs)) level
  = "{" ++ newline_indent indent (S level)
    ++ String.concat (item_separator indent ++ newline_indent indent (S level))
         (map (encode_member indent level) (kv :: kvs))
    ++ newline_indent indent level ++ "}".
Proof. reflexivity. Qed.

Lemma int_repr_head (z : Z) :
  exists c r, Dec.int_repr z = String c r /\ is_digit c || Ascii.eqb c "-" = true.
Proof.
  destruct z as [|p|p]; simpl.
  - now exists "0"%char, EmptyString.
  - assert (H := to_uint_leading_nonzero p).
    destruct (Pos.to_uint p); try discriminate; simpl; eauto.
  - now exists "-"%char, (NilEmpty.string_of_uint (Pos.to_uint p)).
Qed.

Lemma iterencode_starts_value (v : pyval) (level : nat) :
  starts_value (iterencode indent v level) = true.
Proof.
  destruct v as [|[]|z|s|[|x xs]|[|kv kvs]]; try reflexivity.
  destruct (int_repr_head z) as (c & r & E & H).
  cbn [iterencode]. rewrite E. simpl. unfold value_start.
  apply orb_true_iff in H. destruct H as [->|H]; [reflexivity|].
  apply Ascii.eqb_eq in H. now subst c.
Qed.

End Encoded.

(** *** The two layouts on small values *)

Example encode_compact :
  encode None (PList [PInt 1; PNone; PDict [("a", PBool true)]; PList []])
  = "[1, null, {" ++ quote ++ "a" ++ quote ++ ": true}, []]".
Proof. reflexivity. Qed.

Example encode_indented :
  encode (Some 2) (PDict [("a", PList [PInt (-7); PStr "x"]); ("b", PDict [])])
  = "{" ++ nl
    ++ "  " ++ quote ++ "a" ++ quote ++ ": [" ++ nl
    ++ "    -7," ++ nl
    ++ "    " ++ quote ++ "x" ++ quote ++ nl
    ++ "  ]," ++ nl
    ++ "  " ++ quote ++ "b" ++ quote ++ ": {}" ++ nl
    ++ "}".
Proof. reflexivity. Qed.

Example encode_escapes :
  encode None (PStr (String LF (String dquote (String "233" "/"))))
  = quote ++ String backslash "n" ++ String backslash quote
    ++ String backslash "u00e9" ++ "/" ++ quote.
Proof. reflexivity. Qed.

Example loads_spaced :
  loads (" [1 , -0, {" ++ quote ++ "k" ++ quote ++ " : null} ] ")
  = Some (PList [PInt 1; PInt 0; PDict [("k", PNone)]]).
Proof. reflexivity. Qed.

Example loads_duplicate_key :
  loads ("{" ++ quote ++ "k" ++ quote ++ ": 1, " ++ quote ++ "j" ++ quote ++ ": 2, "
         ++ quote ++ "k" ++ quote ++ ": 3}")
  = Some (PDict [("k", PInt 3); ("j", PInt 2)]).
Proof. reflexivity. Qed.

Example loads_rejects :
  loads "[1,]" = None /\ loads "[01]" = None /\ loads "[1] 2" = None
  /\ loads "1.5" = None.
Proof. repeat split; reflexivity. Qed.

(** *** Reading back a value *)

Lemma concat_cons2 (sep a b : string) (l : list string) :
  String.concat sep (a :: b :: l) = a ++ sep ++ String.concat sep (b :: l).
Proof. reflexivity. Qed.

Lemma starts_value_concat (sep a t : string) (l : list string) :
  starts_value a = true -> starts_value (String.concat sep (a :: l) ++ t) = true.
Proof.
  intros H. destruct l as [|b l].
  - now apply starts_value_append.
  - rewrite concat_cons2, append_assoc. now apply starts_value_append.
Qed.

Lemma starts_value_cons (s : string) :
  starts_value s = true ->
  exists c r, s = String c r /\ Ascii.eqb c "]" = false /\ Ascii.eqb c "}" = false.
Proof.
  destruct s as [|c r]; [discriminate|]. simpl. intros H.
  apply value_start_facts in H. exists c, r. tauto.
Qed.

Section Roundtrip.

Variable indent : option nat.

Lemma value_end_close (level : nat) (c : ascii) (rest : string) :
  c = "]"%char \/ c = "}"%char ->
  value_end (newline_indent indent level ++ String c rest) = true.
Proof.
  intros [->| ->]; now destruct indent.
Qed.

Lemma skip_ws_close (level : nat) (c : ascii) (rest : string) :
  c = "]"%char \/ c = "}"%char ->
  skip_ws (newline_indent indent level ++ String c rest) = String c rest.
Proof.
  intros H. rewrite skip_ws_newline_indent. now destruct H as [->| ->].
Qed.

Lemma JSONArray_items (level : nat) (items : list pyval) :
  forall (x : pyval) (fuel : nat) (rest : string),
    Forall (decodes indent) (x :: items) ->
    list_sum (map (fun v => S (fuel_of v)) (x :: items)) <= fuel ->
    JSONArray fuel
      (String.concat (item_separator indent ++ newline_indent indent (S level))
         (map (fun value => iterencode indent value (S level)) (x :: items))
       ++ newline_indent indent level ++ String "]" rest)
    = Some (x :: items, rest).
Proof.
  induction items as [|y ys IH]; intros x fuel rest Hall Hfuel;
    inversion Hall as [|? ? Hx Hrest]; subst;
    (destruct fuel as [|fuel]; [exfalso; simpl in Hfuel; lia|]);
    rewrite JSONArray_step.
  - cbn [map String.concat].
    rewrite Hx;
      [| simpl in Hfuel; lia | apply value_end_close; now left].
    rewrite skip_ws_close by now left.
    reflexivity.
  - specialize (IH y fuel rest Hrest).
    cbn [map] in IH |- *. rewrite concat_cons2.
    set (tail := String.concat _ (_ :: _)) in IH |- *.
    assert (Htail : skip_ws (tail ++ newline_indent indent level ++ String "]" rest)
                    = tail ++ newline_indent indent level ++ String "]" rest)
      by (apply skip_ws_starts_value, starts_value_concat, iterencode_starts_value).
    rewrite !append_assoc, item_separator_comma.
    cbn [String.append].
    rewrite Hx; [| simpl in Hfuel; lia | reflexivity].
    cbn [skip_ws is_ws Ascii.eqb Bool.eqb].
    rewrite skip_ws_after_comma, skip_ws_newline_indent, Htail.
    rewrite IH; [reflexivity |].
    simpl in Hfuel |- *. lia.
Qed.

Lemma encode_member_text (level : nat) (k : string) (v : pyval) (t : string) :
  encode_member indent level (k, v) ++ t
  = String dquote
      ((escape k ++ quote)
       ++ String ":" (String " " (iterencode indent v (S level) ++ t))).
Proof.
  unfold encode_member, encode_basestring_ascii, key_separator.
  cbn [fst snd String.append].
  now rewrite !append_assoc.
Qed.

Lemma JSONObject_items (level : nat) (items : list (string * pyval)) :
  forall (kv : string * pyval) (fuel : nat) (rest : string),
    Forall (fun kv => decodes indent (snd kv)) (kv :: items) ->
    list_sum (map (fun kv => S (fuel_of (snd kv))) (kv :: items)) <= fuel ->
    JSONObject fuel
      (String.concat (item_separator indent ++ newline_indent indent (S level))
         (map (encode_member indent level) (kv :: items))
       ++ newline_indent indent level ++ String "}" rest)
    = Some (kv :: items, rest).
Proof.
  induction items as [|kv' kvs IH]; intros [k v] fuel rest Hall Hfuel;
    inversion Hall as [|? ? Hv Hrest]; subst; cbn [snd] in Hv;
    (destruct fuel as [|fuel]; [exfalso; simpl in Hfuel; lia|]).
  - cbn [map String.concat].
    rewrite encode_member_text, JSONObject_step, scanstring_encoded.
    cbn [skip_ws is_ws Ascii.eqb Bool.eqb].
    rewrite skip_ws_starts_value
      by (apply starts_value_append, iterencode_starts_value).
    rewrite Hv;
      [| simpl in Hfuel; lia | apply value_end_close; now right].
    rewrite skip_ws_close by now right.
    reflexivity.
  - specialize (IH kv' fuel rest Hrest).
    cbn [map] in IH |- *. rewrite concat_cons2.
    set (tail := String.concat _ (_ :: _)) in IH |- *.
    assert (Htail : skip_ws (tail ++ newline_indent indent level ++ String "}" rest)
                    = tail ++ newline_indent indent level ++ String "}" rest).
    { apply skip_ws_starts_value. subst tail.
      apply starts_value_concat. now destruct kv'. }
    rewrite !append_assoc, encode_member_text, item_separator_comma.
    cbn [String.append].
    rewrite JSONObject_step, scanstring_encoded.
    cbn [skip_ws is_ws Ascii.eqb Bool.eqb].
    rewrite skip_ws_starts_value
      by (apply starts_value_append, iterencode_starts_value).
    rewrite Hv; [| simpl in Hfuel; lia | reflexivity].
    cbn [skip_ws is_ws Ascii.eqb Bool.eqb].
    rewrite skip_ws_after_comma, skip_ws_newline_indent, Htail.
    rewrite IH; [reflexivity |].
    simpl in Hfuel |- *. lia.
Qed.

Lemma Forall_decodes (items : list pyval) :
  Forall (fun v => well_formed v = true -> decodes indent v) items ->
  forallb well_formed items = true ->
  Forall (decodes indent) items.
Proof.
  induction 1 as [|x l Hx _ IH]; intros Hwf; constructor;
    simpl in Hwf; apply andb_true_iff in Hwf; destruct Hwf as [H1 H2]; auto.
Qed.

Lemma Forall_decodes_snd (items : list (string * pyval)) :
  Forall (fun kv => well_formed (snd kv) = true -> decodes indent (snd kv)) items ->
  forallb (fun kv => well_formed (snd kv)) items = true ->
  Forall (fun kv => decodes indent (snd kv)) items.
Proof.
  induction 1 as [|x l Hx _ IH]; intros Hwf; constructor;
    simpl in Hwf; apply andb_true_iff in Hwf; destruct Hwf as [H1 H2]; auto.
Qed.

(** Every well-formed value is read back from its encoding. *)
Lemma scan_once_iterencode (v : pyval) : well_formed v = true -> decodes indent v.
Proof.
  induction v as [|b|z|s|items IH|items IH] using pyval_ind;
    intros Hwf level fuel rest Hfuel Hend;
    (destruct fuel as [|fuel]; [exfalso; simpl in Hfuel; lia|]).
  - reflexivity.
  - now destruct b.
  - cbn [iterencode].
    destruct (int_repr_head z) as (c & r & E & H).
    assert (Hn := match_number_repr z rest Hend).
    rewrite E in Hn |- *. cbn [String.append] in Hn |- *.
    now rewrite scan_once_number, Hn.
  - cbn [iterencode]. unfold encode_basestring_ascii. cbn [String.append].
    now rewrite scan_once_string, scanstring_encoded.
  - destruct items as [|x xs]; [reflexivity|].
    assert (Hall := Forall_decodes _ IH Hwf).
    rewrite iterencode_list, !append_assoc. cbn [String.append].
    rewrite scan_once_array, skip_ws_newline_indent.
    assert (Hs : starts_value
              (String.concat (item_separator indent ++ newline_indent indent (S level))
                 (map (fun value => iterencode indent value (S level)) (x :: xs))
               ++ newline_indent indent level ++ String "]" rest) = true)
      by apply starts_value_concat, iterencode_starts_value.
    rewrite (skip_ws_starts_value _ Hs).
    assert (Hitems := JSONArray_items level xs x fuel rest Hall).
    destruct (starts_value_cons _ Hs) as (c & r & E & Hc & _).
    rewrite E in Hitems |- *. rewrite Hc, Hitems; [reflexivity|].
    simpl in Hfuel |- *. lia.
  - destruct items as [|kv kvs]; [reflexivity|].
    cbn [well_formed] in Hwf. apply andb_true_iff in Hwf. destruct Hwf as [Hd Hwf].
    assert (Hall := Forall_decodes_snd _ IH Hwf).
    rewrite iterencode_dict, !append_assoc. cbn [String.append].
    rewrite scan_once_object, skip_ws_newline_indent.
    assert (Hs : starts_value
              (String.concat (item_separator indent ++ newline_indent indent (S level))
                 (map (encode_member indent level) (kv :: kvs))
               ++ newline_indent indent level ++ String "}" rest) = true)
      by (apply starts_value_concat; now destruct kv).
    rewrite (skip_ws_starts_value _ Hs).
    assert (Hitems := JSONObject_items level kvs kv fuel rest Hall).
    destruct (starts_value_cons _ Hs) as (c & r & E & _ & Hc).
    rewrite E in Hitems |- *. rewrite Hc, Hitems.
    + now rewrite dict_of_pairs_distinct.
    + simpl in Hfuel |- *. lia.
Qed.

(** The text of a value is at least as long as the calls it takes. *)
Lemma length_concat (sep : string) (l : list string) :
  1 <= String.length sep -> l <> [] ->
  list_sum (map (fun s => S (String.length s)) l) <= S (String.length (String.concat sep l)).
Proof.
  intros Hsep. induction l as [|a [|b l] IH]; intros Hne.
  - now elim Hne.
  - simpl. lia.
  - rewrite concat_cons2, !length_append.
    assert (H := IH ltac:(discriminate)).
    change (list_sum (map (fun s => S (String.length s)) (a :: b :: l)))
      with (S (String.length a) + list_sum (map (fun s => S (String.length s)) (b :: l))).
    lia.
Qed.

Lemma length_item_separator (level : nat) :
  1 <= String.length (item_separator indent ++ newline_indent indent level).
Proof.
  rewrite item_separator_comma. simpl. lia.
Qed.

Lemma list_sum_le {A : Type} (f g : A -> nat) (l : list A) :
  Forall (fun x => f x <= g x) l ->
  list_sum (map (fun x => S (f x)) l) <= list_sum (map (fun x => S (g x)) l).
Proof.
  induction 1 as [|x l Hx _ IH]; simpl; lia.
Qed.

Lemma fuel_of_length (v : pyval) :
  forall level : nat, fuel_of v <= String.length (iterencode indent v level).
Proof.
  induction v as [|b|z|s|items IH|items IH] using pyval_ind; intros level.
  - simpl. lia.
  - destruct b; simpl; lia.
  - destruct (int_repr_head z) as (c & r & E & _).
    cbn [iterencode fuel_of]. rewrite E. simpl. lia.
  - simpl. lia.
  - destruct items as [|x xs]; [simpl; lia|].
    rewrite iterencode_list, !length_append.
    assert (Hc := length_concat
      (item_separator indent ++ newline_indent indent (S level))
      (map (fun value => iterencode indent value (S level)) (x :: xs))
      (length_item_separator (S level)) ltac:(discriminate)).
    rewrite map_map in Hc.
    assert (Hle := list_sum_le fuel_of
      (fun value => String.length (iterencode indent value (S level))) (x :: xs)).
    cbn [fuel_of].
    assert (Hall : Forall (fun v => fuel_of v
               <= String.length (iterencode indent v (S level))) (x :: xs))
      by (eapply Forall_impl; [|exact IH]; intros a Ha; apply Ha).
    specialize (Hle Hall).
    change (String.length "[") with 1. change (String.length "]") with 1. lia.
  - destruct items as [|kv kvs]; [simpl; lia|].
    rewrite iterencode_dict, !length_append.
    assert (Hc := length_concat
      (item_separator indent ++ newline_indent indent (S level))
      (map (encode_member indent level) (kv :: kvs))
      (length_item_separator (S level)) ltac:(discriminate)).
    rewrite map_map in Hc.
    assert (Hle := list_sum_le (fun kv => fuel_of (snd kv))
      (fun kv => String.length (encode_member indent level kv)) (kv :: kvs)).
    cbn [fuel_of].
    assert (Hall : Forall (fun kv => fuel_of (snd kv)
               <= String.length (encode_member indent level kv)) (kv :: kvs)).
    { eapply Forall_impl; [|exact IH]. intros a Ha. cbn beta in Ha.
      unfold encode_member. rewrite !length_append.
      specialize (Ha (S level)). lia. }
    specialize (Hle Hall).
    change (String.length "{") with 1. change (String.length "}") with 1. lia.
Qed.

(** [json.loads] reads back the text of the encoder. *)
Theorem loads_encode (obj : pyval) :
  well_formed obj = true -> loads (encode indent obj) = Some obj.
Proof.
  intros Hwf. unfold loads, encode.
  rewrite skip_ws_starts_value by apply iterencode_starts_value.
  rewrite <- (append_nil_r (iterencode indent obj 0)) at 2.
  rewrite (scan_once_iterencode obj Hwf); [reflexivity | | reflexivity].
  assert (H := fuel_of_length obj 0). lia.
Qed.

End Roundtrip.

End JsonFacts.

(** ** What the encoder raises *)

Module EncoderFacts.

Import Json Python.

Lemma first_error_In (l : list (option exn)) (e : exn) :
  first_error l = Some e -> In (Some e) l.
Proof.
  induction l as [|[e'|] l IH]; cbn [first_error]; intros H.
  - discriminate.
  - injection H as <-. now left.
  - right. now apply IH.
Qed.

Lemma first_error_None (l : list (option exn)) :
  first_error l = None <-> Forall (fun x => x = None) l.
Proof.
  induction l as [|[e'|] l IH]; cbn [first_error]; split; intros H.
  - constructor.
  - reflexivity.
  - discriminate.
  - inversion H; discriminate.
  - constructor; [reflexivity | now apply IH].
  - inversion H; subst. now apply IH.
Qed.

Section Limits.

Context {py : Interpreter}.

Lemma int_error_Exception (n : Z) (e : exn) :
  int_error n = Some e -> isinstance e "Exception" = true.
Proof.
  unfold int_error.
  destruct (negb (Nat.eqb int_max_str_digits 0)
            && Nat.ltb int_max_str_digits (String.length (Dec.int_repr (Z.abs n))));
    [|discriminate].
  now intros [= <-].
Qed.

(** The encoder raises nothing but instances of [Exception]: a
    [ValueError] or a [RecursionError]. *)
Lemma encode_error_Exception (o : pyval) :
  forall (room : nat) (e : exn),
    encode_error o room = Some e -> isinstance e "Exception" = true.
Proof.
  induction o as [|b|z|s|items IH|items IH] using pyval_ind; intros room e;
    cbn [encode_error]; try discriminate.
  - apply int_error_Exception.
  - destruct room as [|room]; [now intros [= <-]|].
    intros H. apply first_error_In, in_map_iff in H.
    destruct H as (x & Hx & Hin).
    rewrite Forall_forall in IH. exact (IH x Hin room e Hx).
  - destruct room as [|room]; [now intros [= <-]|].
    intros H. apply first_error_In, in_map_iff in H.
    destruct H as (x & Hx & Hin).
    rewrite Forall_forall in IH. exact (IH x Hin room e Hx).
Qed.

Lemma dumps_Returns (indent : option nat) (obj : pyval) (text : string) :
  dumps indent obj = Returns text <->
  encode_error obj (room indent) = None /\ text = encode indent obj.
Proof.
  unfold dumps. destruct (encode_error obj (room indent)); split.
  - discriminate.
  - now intros [H _].
  - now intros [= <-].
  - now intros [_ ->].
Qed.

Lemma dumps_Raises (indent : option nat) (obj : pyval) (e : exn) :
  dumps indent obj = Raises e <-> encode_error obj (room indent) = Some e.
Proof.
  unfold dumps. destruct (encode_error obj (room indent)); split;
    try discriminate; now intros [= <-].
Qed.

(** The encoder always gives the text of a dict that holds one str. *)
Lemma dumps_one_str (key value : string) :
  dumps None (PDict [(key, PStr value)])
  = Returns (encode None (PDict [(key, PStr value)])).
Proof. reflexivity. Qed.

(** What is too deep for the encoder raises; what is not, and holds no
    int, is encoded. *)
Lemma encode_error_deep (o : pyval) :
  forall room : nat, room < depth o -> encode_error o room <> None.
Proof.
  induction o as [|b|z|s|items IH|items IH] using pyval_ind; intros room;
    cbn [depth encode_error]; try lia.
  - destruct room as [|room]; [discriminate|]. intros Hlt H.
    apply first_error_None in H. rewrite Forall_map in H.
    assert (Hmax : room < list_max (map depth items)) by lia.
    apply Nat.lt_nge in Hmax. apply Hmax, list_max_le.
    rewrite Forall_map, Forall_forall in *. intros x Hin.
    apply Nat.nlt_ge. intros Hx. exact (IH x Hin room Hx (H x Hin)).
  - destruct room as [|room]; [discriminate|]. intros Hlt H.
    apply first_error_None in H. rewrite Forall_map in H.
    assert (Hmax : room < list_max (map (fun kv => depth (snd kv)) items)) by lia.
    apply Nat.lt_nge in Hmax. apply Hmax, list_max_le.
    rewrite Forall_map, Forall_forall in *. intros x Hin.
    apply Nat.nlt_ge. intros Hx. exact (IH x Hin room Hx (H x Hin)).
Qed.

End Limits.

(** [repr(10 ** 4300)] has 4301 digits: one more than CPython prints. *)
Lemma long_int_error :
  int_error (py := cpython) (10 ^ 4300)
  = Some (ValueError
            ("Exceeds the limit (4300 digits) for integer string conversion; "
             ++ "use sys.set_int_max_str_digits() to increase the limit")).
Proof. vm_compute. reflexivity. Qed.

End EncoderFacts.

(** ** Runs of the handler *)

Module HandlerFacts.

Import Str StrFacts Json JsonAux JsonFacts EncoderFacts.
Import Datetime DatetimeFacts Python Runtime Handler Run.

Section Runs.

Context {py : Interpreter} {Ctx : Type}.
Variable w : world.
Variable event : pyval.
Variable context : Ctx.

Lemma configured_None :
  configured w = None <->
  environ w "BUCKET_NAME" = None \/ environ w "BUCKET_NAME" = Some EmptyString.
Proof.
  unfold configured. destruct (environ w "BUCKET_NAME") as [[|c b]|]; split;
    (discriminate || auto); intros [H|H]; discriminate.
Qed.

Lemma configured_Some (b : string) :
  configured w = Some b <-> environ w "BUCKET_NAME" = Some b /\ b <> EmptyString.
Proof.
  unfold configured. destruct (environ w "BUCKET_NAME") as [[|c b']|]; split;
    try discriminate; try (intros [H _]; discriminate).
  - intros [[= <-] H]. now elim H.
  - intros [= <-]. split; [reflexivity | discriminate].
  - now intros [[= <-] _].
Qed.

(** Without a bucket name the run is one raise and one print. *)
Lemma handler_unconfigured :
  configured w = None ->
  handler event context w
  = (Returns (failure_response (ValueError "BUCKET_NAME environment variable not set")),
     w,
     [Printed "Error: BUCKET_NAME environment variable not set"]).
Proof.
  unfold configured, handler, try_except, bind, os_environ_get.
  destruct (environ w "BUCKET_NAME") as [[|c b]|]; [reflexivity | discriminate | reflexivity].
Qed.

(** With a bucket name the run reads the clock twice; then the encoder,
    the S3 client and the encoder again decide how it goes on. *)
Lemma handler_configured (b : string) :
  configured w = Some b ->
  handler event context w
  = match encode_error (response_data w event b) recursion_budget with
    | Some e =>
        (Returns (failure_response e), read_twice w,
         [Utcnow (first_reading w); Utcnow (second_reading w);
          Printed (error_message e)])
    | None =>
        match s3_put_object w (request w event b) with
        | Some e =>
            if isinstance e "Exception" then
              (Returns (failure_response e), read_twice w,
               [Utcnow (first_reading w); Utcnow (second_reading w);
                PutObject (request w event b) (Some e);
                Printed (error_message e)])
            else
              (Raises e, read_twice w,
               [Utcnow (first_reading w); Utcnow (second_reading w);
                PutObject (request w event b) (Some e)])
        | None =>
            match encode_error (success_body w event b) recursion_budget with
            | Some e =>
                (Returns (failure_response e), read_twice w,
                 [Utcnow (first_reading w); Utcnow (second_reading w);
                  PutObject (request w event b) None;
                  Printed (success_line w b);
                  Printed (error_message e)])
            | None =>
                (Returns (success_response w event b), read_twice w,
                 [Utcnow (first_reading w); Utcnow (second_reading w);
                  PutObject (request w event b) None;
                  Printed (success_line w b)])
            end
        end
    end.
Proof.
  intros H. apply configured_Some in H. destruct H as [E Hb].
  unfold handler, try_except, bind, os_environ_get. rewrite E.
  destruct b as [|c b]; [now elim Hb|].
  unfold utcnow, put_object, print, ret, evaluate, dumps.
  cbn [ticks clock environ Runtime.s3_put_object room].
  fold (first_reading w). fold (second_reading w).
  change (PDict [("message", PStr "Hello from Lambda!");
                 ("timestamp", PStr (isoformat (first_reading w)));
                 ("event", event); ("bucket", PStr (String c b))])
    with (response_data w event (String c b)).
  change ("lambda-executions/" ++ strftime (second_reading w) "%Y-%m-%d/%H-%M-%S"
          ++ ".json") with (s3_key w).
  change (PDict [("message", PStr "Success!");
                 ("data", response_data w event (String c b));
                 ("s3_location", PStr ("s3://" ++ String c b ++ "/" ++ s3_key w))])
    with (success_body w event (String c b)).
  destruct (encode_error (response_data w event (String c b)) recursion_budget)
    as [e|] eqn:E37.
  - rewrite (encode_error_Exception _ _ _ E37). reflexivity.
  - change (mkPut (String c b) (s3_key w)
              (encode (Some 2) (response_data w event (String c b))) "application/json")
      with (request w event (String c b)).
    destruct (s3_put_object w (request w event (String c b))) as [e|].
    + destruct (isinstance e "Exception"); reflexivity.
    + destruct (encode_error (success_body w event (String c b)) recursion_budget)
        as [e|] eqn:E45.
      * rewrite (encode_error_Exception _ _ _ E45). reflexivity.
      * reflexivity.
Qed.

(** *** The write in the trace *)

Lemma put_in_trace (req : put_request) (x : option exn) :
  In (PutObject req x) (trace (handler event context w)) ->
  exists b, configured w = Some b /\ req = request w event b
            /\ x = s3_put_object w (request w event b)
            /\ encode_error (response_data w event b) recursion_budget = None.
Proof.
  destruct (configured w) as [b|] eqn:E.
  - rewrite (handler_configured b E). intros H. exists b.
    destruct (encode_error (response_data w event b) recursion_budget) as [e37|];
      [cbn [trace snd In] in H; destruct H as [H|[H|[H|[]]]]; discriminate|].
    destruct (s3_put_object w (request w event b)) as [e|];
      [destruct (isinstance e "Exception")
      |destruct (encode_error (success_body w event b) recursion_budget) as [e45|]];
      cbn [trace snd In] in H;
      repeat (destruct H as [H|H]; [try discriminate; inversion H; subst; auto|]);
      destruct H.
  - rewrite (handler_unconfigured E). cbn [trace snd In].
    intros [H|[]]; discriminate.
Qed.

Lemma puts_of_run (b : string) :
  configured w = Some b ->
  put_requests (trace (handler event context w))
  = match encode_error (response_data w event b) recursion_budget with
    | Some _ => []
    | None => [(request w event b, s3_put_object w (request w event b))]
    end.
Proof.
  intros E. rewrite (handler_configured b E).
  destruct (encode_error (response_data w event b) recursion_budget) as [e37|];
    [reflexivity|].
  destruct (s3_put_object w (request w event b)) as [e|];
    [destruct (isinstance e "Exception")
    |destruct (encode_error (success_body w event b) recursion_budget) as [e45|]];
    reflexivity.
Qed.

Lemma reads_of_run (b : string) :
  configured w = Some b ->
  clock_reads (trace (handler event context w)) = [first_reading w; second_reading w]
  /\ world_after (handler event context w) = read_twice w.
Proof.
  intros E. rewrite (handler_configured b E).
  destruct (encode_error (response_data w event b) recursion_budget) as [e37|];
    [split; reflexivity|].
  destruct (s3_put_object w (request w event b)) as [e|];
    [destruct (isinstance e "Exception")
    |destruct (encode_error (success_body w event b) recursion_budget) as [e45|]];
    split; reflexivity.
Qed.

(** A 200 envelope comes of one path only. *)
Lemma returned_200 (response : pyval) :
  returned (handler event context w) = Some response ->
  statusCode response = Some (PInt 200) ->
  exists b,
    configured w = Some b
    /\ response = success_response w event b
    /\ encode_error (response_data w event b) recursion_budget = None
    /\ s3_put_object w (request w event b) = None
    /\ encode_error (success_body w event b) recursion_budget = None
    /\ trace (handler event context w)
       = [Utcnow (first_reading w); Utcnow (second_reading w);
          PutObject (request w event b) None; Printed (success_line w b)].
Proof.
  destruct (configured w) as [b|] eqn:E.
  - rewrite (handler_configured b E). exists b.
    destruct (encode_error (response_data w event b) recursion_budget) as [e37|];
      [cbn [returned] in H; injection H as <-; discriminate|].
    destruct (s3_put_object w (request w event b)) as [e|];
      [destruct (isinstance e "Exception")
      |destruct (encode_error (success_body w event b) recursion_budget) as [e45|]];
      cbn [returned] in H; try discriminate; injection H as <-;
      try discriminate; auto 10.
  - rewrite (handler_unconfigured E). cbn [returned].
    intros [= <-]. discriminate.
Qed.

(** *** Reading the envelopes *)

Lemma statusCode_response (code body headers : pyval) :
  statusCode (PDict [("statusCode", code); ("body", body); ("headers", headers)])
  = Some code.
Proof. reflexivity. Qed.

Lemma decoded_body_response (code headers : pyval) (text : string) :
  decoded_body (PDict [("statusCode", code); ("body", PStr text); ("headers", headers)])
  = loads text.
Proof. reflexivity. Qed.

Lemma well_formed_response_data (b : string) :
  well_formed event = true -> well_formed (response_data w event b) = true.
Proof.
  intros H. unfold response_data. cbn. now rewrite H.
Qed.

Lemma well_formed_success_body (b : string) :
  well_formed event = true -> well_formed (success_body w event b) = true.
Proof.
  intros H. unfold success_body.
  cbn [well_formed map fst snd forallb].
  rewrite (well_formed_response_data b H). reflexivity.
Qed.

Lemma decoded_success (b : string) :
  well_formed event = true ->
  decoded_body (success_response w event b) = Some (success_body w event b).
Proof.
  intros H. unfold success_response. rewrite decoded_body_response.
  apply loads_encode, well_formed_success_body, H.
Qed.

Lemma decoded_failure (e : exn) :
  decoded_body (failure_response e) = Some (failure_body e).
Proof.
  unfold failure_response. rewrite decoded_body_response.
  now apply loads_encode.
Qed.

Lemma stored_record (b : string) :
  well_formed event = true ->
  loads (Body (request w event b)) = Some (response_data w event b).
Proof.
  intros H. apply loads_encode, well_formed_response_data, H.
Qed.

Lemma dumps_record (b : string) :
  encode_error (response_data w event b) recursion_budget = None ->
  dumps (Some 2) (response_data w event b) = Returns (Body (request w event b)).
Proof.
  intros H. now apply dumps_Returns.
Qed.

(** *** The key and the location *)

Lemma s3_key_format :
  s3_key w
  = "lambda-executions/" ++ date_YYYY_MM_DD (second_reading w) ++ "/"
    ++ time_HH_MM_SS (second_reading w) ++ ".json".
Proof.
  unfold s3_key. rewrite strftime_key_format.
  now rewrite !append_assoc.
Qed.



End Runs.

(** *** An event that line 37 cannot print *)

Lemma long_int_refused :
  encode_error (py := cpython)
    (response_data scenario_world long_int_event "my-bucket")
    (recursion_budget (Interpreter := cpython))
  = Some (ValueError
            ("Exceeds the limit (4300 digits) for integer string conversion; "
             ++ "use sys.set_int_max_str_digits() to increase the limit")).
Proof.
  change (recursion_budget (Interpreter := cpython)) with 990.
  unfold response_data, long_int_event.
  cbn [encode_error map snd first_error].
  rewrite long_int_error. reflexivity.
Qed.

Lemma long_int_handler :
  handler (py := cpython) long_int_event tt scenario_world
  = (Returns (failure_response
                (ValueError
                   ("Exceeds the limit (4300 digits) for integer string conversion; "
                    ++ "use sys.set_int_max_str_digits() to increase the limit"))),
     read_twice scenario_world,
     [Utcnow (first_reading scenario_world); Utcnow (second_reading scenario_world);
      Printed (error_message
                 (ValueError
                    ("Exceeds the limit (4300 digits) for integer string conversion; "
                     ++ "use sys.set_int_max_str_digits() to increase the limit")))]).
Proof.
  rewrite (handler_configured (py := cpython) scenario_world long_int_event tt
             "my-bucket" eq_refl), long_int_refused.
  reflexivity.
Qed.

End HandlerFacts.

(* ================================================================= *)
(** * The contract of the relay *)

Import Str StrFacts Json JsonFacts EncoderFacts Datetime DatetimeFacts.
Import Python Runtime Handler Run HandlerFacts.




(** C2 (config gate).  When BUCKET_NAME is unset or empty, the handler
    returns statusCode 500, the [error] of the decoded body contains the
    text "BUCKET_NAME environment variable not set", and [s3.put_object] is
    not called. *)
Theorem config_gate {py : Interpreter} {Ctx : Type}
    (w : world) (event : pyval) (context : Ctx) :
  environ w "BUCKET_NAME" = None \/ environ w "BUCKET_NAME" = Some EmptyString ->
  exists response body message,
    returned (handler event context w) = Some response
    /\ statusCode response = Some (PInt 500)
    /\ decoded_body response = Some body
    /\ get "error" body = Some (PStr message)
    /\ contains "BUCKET_NAME environment variable not set" message = true
    /\ put_requests (trace (handler event context w)) = [].
Proof.
  intros H. apply configured_None in H.
  rewrite (handler_unconfigured w event context H).
  exists (failure_response (ValueError "BUCKET_NAME environment variable not set")),
         (failure_body (ValueError "BUCKET_NAME environment variable not set")),
         "Error: BUCKET_NAME environment variable not set".
  repeat split; reflexivity.
Qed.

Lemma config_gate_witness :
  exists response body message,
    returned (handler (py := cpython) scenario_event tt unconfigured_world)
    = Some response
    /\ statusCode response = Some (PInt 500)
    /\ decoded_body response = Some body
    /\ get "error" body = Some (PStr message)
    /\ contains "BUCKET_NAME environment variable not set" message = true
    /\ put_requests (trace (handler (py := cpython) scenario_event tt unconfigured_world))
       = [].
Proof.
  apply (config_gate (py := cpython) unconfigured_world scenario_event tt).
  left. reflexivity.
Defined.

(** C3 as the spec words it fails: when the write raises
    [KeyboardInterrupt], which is no instance of [Exception], the except
    clause lets it through and the handler returns nothing. *)
Lemma interrupt_goes_through :
  exists req,
    In (PutObject req (Some KeyboardInterrupt))
       (trace (handler (py := cpython) scenario_event tt interrupted_world))
    /\ returned (handler (py := cpython) scenario_event tt interrupted_world) = None.
Proof.
  exists (request interrupted_world scenario_event "my-bucket").
  split; [|vm_compute; reflexivity].
  vm_compute. right. right. left. reflexivity.
Qed.

(** C3, amended (failure shape on write error).  When [s3.put_object]
    raises an instance of [Exception] whose text is m, the handler returns
    statusCode 500 and the [error] of the decoded body starts with
    "Error: " and contains m. *)
Theorem write_error_shape {py : Interpreter} {Ctx : Type}
    (w : world) (event : pyval) (context : Ctx) (req : put_request) (e : exn) :
  isinstance e "Exception" = true ->
  In (PutObject req (Some e)) (trace (handler event context w)) ->
  exists response body message,
    returned (handler event context w) = Some response
    /\ statusCode response = Some (PInt 500)
    /\ decoded_body response = Some body
    /\ get "error" body = Some (PStr message)
    /\ startswith "Error: " message = true
    /\ contains (str e) message = true.
Proof.
  intros Hexc H. apply put_in_trace in H. destruct H as (b & E & _ & Hx & E37).
  rewrite (handler_configured w event context b E), E37, <- Hx, Hexc.
  exists (failure_response e), (failure_body e), (error_message e).
  repeat split; try reflexivity.
  - apply decoded_failure.
  - apply prefix_append.
  - apply contains_suffix.
Qed.

Lemma write_error_shape_witness :
  exists response body message,
    returned (handler (py := cpython) scenario_event tt denying_world) = Some response
    /\ statusCode response = Some (PInt 500)
    /\ decoded_body response = Some body
    /\ get "error" body = Some (PStr message)
    /\ startswith "Error: " message = true
    /\ contains (str denied) message = true.
Proof.
  apply (write_error_shape (py := cpython) denying_world scenario_event tt
           (request denying_world scenario_event "my-bucket") denied).
  - reflexivity.
  - vm_compute. right. right. left. reflexivity.
Defined.

(** C4 as the spec words it fails: when the write raises
    [KeyboardInterrupt] the handler does not return: the exception leaves
    it. *)
Lemma interrupted_run_raises :
  fst (fst (handler (py := cpython) scenario_event tt interrupted_world))
  = Raises KeyboardInterrupt.
Proof. vm_compute. reflexivity. Qed.

(** C4, amended (envelope shape).  Whatever the event, the context and the
    configuration, and whether [json.dumps] raises or not, when the write
    returns or raises an instance of [Exception] the handler returns, and
    what it returns is a dict with exactly the keys statusCode, body and
    headers, where headers holds Content-Type: application/json. *)
Theorem envelope_shape {py : Interpreter} {Ctx : Type}
    (w : world) (event : pyval) (context : Ctx) :
  (forall req e,
      In (PutObject req (Some e)) (trace (handler event context w)) ->
      isinstance e "Exception" = true) ->
  exists (code : Z) (body : string),
    returned (handler event context w)
    = Some (PDict [("statusCode", PInt code);
                   ("body", PStr body);
                   ("headers", PDict [("Content-Type", PStr "application/json")])])
    /\ (code = 200 \/ code = 500)%Z.
Proof.
  destruct (configured w) as [b|] eqn:E.
  - rewrite (handler_configured w event context b E).
    destruct (encode_error (response_data w event b) recursion_budget) as [e37|].
    { intros _. exists 500%Z, (encode None (failure_body e37)).
      split; [reflexivity | now right]. }
    destruct (s3_put_object w (request w event b)) as [e|].
    + destruct (isinstance e "Exception") eqn:Hexc.
      * intros _. exists 500%Z, (encode None (failure_body e)).
        split; [reflexivity | now right].
      * intros H. specialize (H (request w event b) e).
        cbn [trace snd In] in H. rewrite H in Hexc; [discriminate | auto].
    + destruct (encode_error (success_body w event b) recursion_budget) as [e45|];
        intros _.
      * exists 500%Z, (encode None (failure_body e45)).
        split; [reflexivity | now right].
      * exists 200%Z, (encode (Some 2) (success_body w event b)).
        split; [reflexivity | now left].
  - rewrite (handler_unconfigured w event context E). intros _.
    exists 500%Z,
      (encode None (failure_body (ValueError "BUCKET_NAME environment variable not set"))).
    split; [reflexivity | now right].
Qed.

Lemma envelope_shape_witness :
  exists (code : Z) (body : string),
    returned (handler (py := cpython) scenario_event tt denying_world)
    = Some (PDict [("statusCode", PInt code);
                   ("body", PStr body);
                   ("headers", PDict [("Content-Type", PStr "application/json")])])
    /\ (code = 200 \/ code = 500)%Z.
Proof.
  apply (envelope_shape (py := cpython) denying_world scenario_event tt).
  intros req e H. vm_compute in H.
  destruct H as [H|[H|[H|[H|[]]]]]; try discriminate.
  injection H as _ <-. reflexivity.
Defined.

(** C5 (storage key).  In every invocation that reaches the write, the key
    is lambda-executions/{date}/{time}.json, where {date} is the date
    YYYY-MM-DD and {time} the time HH-MM-SS of the clock reading taken just
    before the write; a reading of 2024-01-02T03:04:05 gives the key
    lambda-executions/2024-01-02/03-04-05.json. *)
Theorem key_format {py : Interpreter} {Ctx : Type}
    (w : world) (event : pyval) (context : Ctx)
    (req : put_request) (x : option exn) :
  In (PutObject req x) (trace (handler event context w)) ->
  exists (now now' : datetime) (after : list effect),
    trace (handler event context w)
    = (Utcnow now :: Utcnow now' :: PutObject req x :: after)
    /\ Key req = "lambda-executions/" ++ date_YYYY_MM_DD now' ++ "/"
                 ++ time_HH_MM_SS now' ++ ".json"
    /\ (Datetime.valid now' = true ->
        is_date (date_YYYY_MM_DD now') /\ is_time (time_HH_MM_SS now'))
    /\ (forall us, now' = mkDatetime 2024 1 2 3 4 5 us ->
        Key req = "lambda-executions/2024-01-02/03-04-05.json").
Proof.
  intros H. apply put_in_trace in H. destruct H as (b & E & -> & -> & E37).
  exists (first_reading w), (second_reading w).
  rewrite (handler_configured w event context b E), E37.
  assert (K : Key (request w event b)
              = "lambda-executions/" ++ date_YYYY_MM_DD (second_reading w) ++ "/"
                ++ time_HH_MM_SS (second_reading w) ++ ".json")
    by apply s3_key_format.
  assert (Hrest :
    (Datetime.valid (second_reading w) = true ->
     is_date (date_YYYY_MM_DD (second_reading w))
     /\ is_time (time_HH_MM_SS (second_reading w)))
    /\ (forall us, second_reading w = mkDatetime 2024 1 2 3 4 5 us ->
        Key (request w event b) = "lambda-executions/2024-01-02/03-04-05.json")).
  { split; [apply date_time_digits|]. intros us Hus. rewrite K, Hus. reflexivity. }
  destruct (s3_put_object w (request w event b)) as [e|];
    [destruct (isinstance e "Exception")
    |destruct (encode_error (success_body w event b) recursion_budget) as [e45|]];
    eexists; (split; [reflexivity|]); (split; [exact K | exact Hrest]).
Qed.

Lemma key_format_witness :
  exists (now now' : datetime) (after : list effect),
    trace (handler (py := cpython) scenario_event tt scenario_world)
    = (Utcnow now :: Utcnow now'
       :: PutObject (request scenario_world scenario_event "my-bucket") None :: after)
    /\ Key (request scenario_world scenario_event "my-bucket")
       = "lambda-executions/" ++ date_YYYY_MM_DD now' ++ "/"
         ++ time_HH_MM_SS now' ++ ".json"
    /\ (Datetime.valid now' = true ->
        is_date (date_YYYY_MM_DD now') /\ is_time (time_HH_MM_SS now'))
    /\ (forall us, now' = mkDatetime 2024 1 2 3 4 5 us ->
        Key (request scenario_world scenario_event "my-bucket")
        = "lambda-executions/2024-01-02/03-04-05.json").
Proof.
  apply (key_format (py := cpython) scenario_world scenario_event tt
           (request scenario_world scenario_event "my-bucket") None).
  vm_compute. right. right. left. reflexivity.
Defined.

(** C6 (one write at most).  In every invocation [s3.put_object] is called
    at most once.  When BUCKET_NAME is set and not empty and line 37 gives
    the text of the record, it is called exactly once, with that text; on
    the success path that call returned and left one object in the store.
    When the invocation fails before the write, BUCKET_NAME being unset or
    empty or line 37 raising, it is not called and no object is left. *)
Theorem at_most_one_write {py : Interpreter} {Ctx : Type}
    (w : world) (event : pyval) (context : Ctx) :
  List.length (put_requests (trace (handler event context w))) <= 1
  /\ (forall b text,
        environ w "BUCKET_NAME" = Some b -> b <> EmptyString ->
        dumps (Some 2) (response_data w event b) = Returns text ->
        exists req,
          put_requests (trace (handler event context w))
          = [(req, s3_put_object w req)]
          /\ Bucket req = b /\ Body req = text)
  /\ (forall response,
        returned (handler event context w) = Some response ->
        statusCode response = Some (PInt 200) ->
        exists req,
          put_requests (trace (handler event context w)) = [(req, None)]
          /\ objects_written (trace (handler event context w)) = [req])
  /\ (environ w "BUCKET_NAME" = None \/ environ w "BUCKET_NAME" = Some EmptyString ->
      put_requests (trace (handler event context w)) = []
      /\ objects_written (trace (handler event context w)) = [])
  /\ (forall b e,
        environ w "BUCKET_NAME" = Some b ->
        dumps (Some 2) (response_data w event b) = Raises e ->
        put_requests (trace (handler event context w)) = []
        /\ objects_written (trace (handler event context w)) = []).
Proof.
  split; [|split; [|split; [|split]]].
  - destruct (configured w) as [b|] eqn:E.
    + rewrite (puts_of_run w event context b E).
      destruct (encode_error (response_data w event b) recursion_budget);
        cbn [Datatypes.length]; lia.
    + rewrite (handler_unconfigured w event context E). cbn. lia.
  - intros b text Henv Hne Htext.
    assert (E : configured w = Some b) by now apply configured_Some.
    apply dumps_Returns in Htext. destruct Htext as [E37 ->]. cbn [room] in E37.
    exists (request w event b).
    rewrite (puts_of_run w event context b E), E37. repeat split.
  - intros response Hret Hcode.
    destruct (returned_200 w event context response Hret Hcode)
      as (b & E & _ & E37 & Hok & _ & Htrace).
    exists (request w event b). rewrite Htrace. split; reflexivity.
  - intros H. apply configured_None in H.
    rewrite (handler_unconfigured w event context H). split; reflexivity.
  - intros b e Henv Hraise.
    apply dumps_Raises in Hraise. cbn [room] in Hraise.
    destruct (configured w) as [b'|] eqn:E.
    + assert (b' = b) as ->.
      { apply configured_Some in E. destruct E as [E _]. congruence. }
      rewrite (handler_configured w event context b E), Hraise.
      split; reflexivity.
    + rewrite (handler_unconfigured w event context E). split; reflexivity.
Qed.

Lemma at_most_one_write_witness :
  exists req,
    put_requests (trace (handler (py := cpython) scenario_event tt scenario_world))
    = [(req, None)]
    /\ objects_written (trace (handler (py := cpython) scenario_event tt scenario_world))
       = [req].
Proof.
  apply (proj1 (proj2 (proj2
           (at_most_one_write (py := cpython) scenario_world scenario_event tt)))
           (success_response scenario_world scenario_event "my-bucket")).
  - reflexivity.
  - reflexivity.
Defined.

(** C7 as the spec words it fails: in the scenario of the spec the write
    succeeds, and the record, both under [data] in the body of the envelope
    and in the stored object, has no field named [destination]. *)
Lemma record_has_no_destination :
  exists response body data req stored,
    returned (handler (py := cpython) scenario_event tt scenario_world) = Some response
    /\ statusCode response = Some (PInt 200)
    /\ decoded_body response = Some body
    /\ get "data" body = Some data
    /\ get "destination" data = None
    /\ put_requests (trace (handler (py := cpython) scenario_event tt scenario_world))
       = [(req, None)]
    /\ loads (Body req) = Some stored
    /\ get "destination" stored = None.
Proof.
  exists (success_response scenario_world scenario_event "my-bucket"),
         (success_body scenario_world scenario_event "my-bucket"),
         (response_data scenario_world scenario_event "my-bucket"),
         (request scenario_world scenario_event "my-bucket"),
         (response_data scenario_world scenario_event "my-bucket").
  repeat split; vm_compute; reflexivity.
Qed.

(** C7, amended (record field).  In every successful invocation, one that
    answers 200, the record, under [data] in the body of the envelope and
    in the stored object, has the fields message, timestamp, event and
    bucket, in this order, and [bucket] is the value of BUCKET_NAME. *)
Theorem record_bucket_field {py : Interpreter} {Ctx : Type}
    (w : world) (event : pyval) (context : Ctx)
    (destination : string) (response : pyval) :
  environ w "BUCKET_NAME" = Some destination ->
  destination <> EmptyString ->
  well_formed event = true ->
  returned (handler event context w) = Some response ->
  statusCode response = Some (PInt 200) ->
  exists body data req,
    decoded_body response = Some body
    /\ get "data" body = Some data
    /\ put_requests (trace (handler event context w)) = [(req, None)]
    /\ loads (Body req) = Some data
    /\ keys data = ["message"; "timestamp"; "event"; "bucket"]
    /\ get "bucket" data = Some (PStr destination).
Proof.
  intros Henv Hne Hwf Hret Hcode.
  assert (E : configured w = Some destination) by now apply configured_Some.
  destruct (returned_200 w event context response Hret Hcode)
    as (b & E' & -> & _ & _ & _ & Htrace).
  rewrite E in E'. injection E' as <-.
  exists (success_body w event destination), (response_data w event destination),
         (request w event destination).
  rewrite Htrace. repeat split; try reflexivity.
  - now apply decoded_success.
  - now apply stored_record.
Qed.

Lemma record_bucket_field_witness :
  exists body data req,
    decoded_body (success_response scenario_world scenario_event "my-bucket")
    = Some body
    /\ get "data" body = Some data
    /\ put_requests (trace (handler (py := cpython) scenario_event tt scenario_world))
       = [(req, None)]
    /\ loads (Body req) = Some data
    /\ keys data = ["message"; "timestamp"; "event"; "bucket"]
    /\ get "bucket" data = Some (PStr "my-bucket").
Proof.
  apply (record_bucket_field (py := cpython) scenario_world scenario_event tt
           "my-bucket" (success_response scenario_world scenario_event "my-bucket")).
  - reflexivity.
  - discriminate.
  - reflexivity.
  - reflexivity.
  - reflexivity.
Defined.



(** C9 (two clock reads).  An invocation that reaches the write reads the
    clock twice: the first reading is the [timestamp] of the record, the
    second, taken later, is the instant of the key.  The clock being a
    sequence of instants, the two can differ: there is a run whose key is
    not the key of the instant in its record. *)
Theorem two_clock_reads {py : Interpreter} {Ctx : Type}
    (w : world) (event : pyval) (context : Ctx)
    (req : put_request) (x : option exn) :
  In (PutObject req x) (trace (handler event context w)) ->
  (exists record,
      clock_reads (trace (handler event context w)) = [clock w (ticks w); clock w (S (ticks w))]
      /\ ticks (world_after (handler event context w)) = S (S (ticks w))
      /\ dumps (Some 2) record = Returns (Body req)
      /\ get "timestamp" record = Some (PStr (isoformat (clock w (ticks w))))
      /\ Key req = "lambda-executions/"
                   ++ strftime (clock w (S (ticks w))) "%Y-%m-%d/%H-%M-%S" ++ ".json")
  /\ (exists (w' : world) (event' : pyval) (req' : put_request),
        In (PutObject req' None) (trace (handler event' tt w'))
        /\ Key req' <> "lambda-executions/"
                       ++ strftime (clock w' (ticks w')) "%Y-%m-%d/%H-%M-%S" ++ ".json").
Proof.
  intros H. apply put_in_trace in H. destruct H as (b & E & -> & -> & E37). split.
  - exists (response_data w event b).
    destruct (reads_of_run w event context b E) as [-> ->].
    repeat split; try reflexivity. now apply dumps_record.
  - (* a record is a dict: the encoder that gave its text has room for one *)
    assert (Hroom : exists r, recursion_budget = S r).
    { destruct recursion_budget as [|r]; [discriminate | now exists r]. }
    destruct Hroom as [r Hroom].
    assert (E0 : configured ticking_world = Some "my-bucket") by reflexivity.
    assert (E37' : encode_error (response_data ticking_world PNone "my-bucket")
                     recursion_budget = None)
      by (rewrite Hroom; reflexivity).
    exists ticking_world, PNone, (request ticking_world PNone "my-bucket").
    split.
    + rewrite (handler_configured ticking_world PNone tt "my-bucket" E0), E37'.
      change (s3_put_object ticking_world (request ticking_world PNone "my-bucket"))
        with (@None exn).
      destruct (encode_error (success_body ticking_world PNone "my-bucket")
                  recursion_budget);
        cbn [trace snd In]; auto.
    + vm_compute. discriminate.
Qed.

Lemma two_clock_reads_witness :
  (exists record,
      clock_reads (trace (handler (py := cpython) scenario_event tt ticking_world))
      = [clock ticking_world (ticks ticking_world);
         clock ticking_world (S (ticks ticking_world))]
      /\ ticks (world_after (handler (py := cpython) scenario_event tt ticking_world))
         = S (S (ticks ticking_world))
      /\ dumps (py := cpython) (Some 2) record
         = Returns (Body (request ticking_world scenario_event "my-bucket"))
      /\ get "timestamp" record
         = Some (PStr (isoformat (clock ticking_world (ticks ticking_world))))
      /\ Key (request ticking_world scenario_event "my-bucket")
         = "lambda-executions/"
           ++ strftime (clock ticking_world (S (ticks ticking_world))) "%Y-%m-%d/%H-%M-%S"
           ++ ".json")
  /\ (exists (w' : world) (event' : pyval) (req' : put_request),
        In (PutObject req' None) (trace (handler (py := cpython) event' tt w'))
        /\ Key req' <> "lambda-executions/"
                       ++ strftime (clock w' (ticks w')) "%Y-%m-%d/%H-%M-%S" ++ ".json").
Proof.
  apply (two_clock_reads (py := cpython) ticking_world scenario_event tt
           (request ticking_world scenario_event "my-bucket") None).
  vm_compute. right. right. left. reflexivity.
Defined.



(* ================================================================= *)
(** * More on the handler *)

Import Observations.

(** ** Texts of printable characters *)

Module AsciiFacts.

Lemma all_chars_append (p : ascii -> bool) (a b : string) :
  all_chars p (a ++ b) = all_chars p a && all_chars p b.
Proof.
  induction a as [|c a IH]; [reflexivity|].
  cbn [String.append all_chars]. now rewrite IH, andb_assoc.
Qed.

Lemma all_chars_weaken (p q : ascii -> bool) (s : string) :
  (forall c, p c = true -> q c = true) ->
  all_chars p s = true -> all_chars q s = true.
Proof.
  intros Hpq. induction s as [|c s IH]; [reflexivity|].
  cbn [all_chars]. intros H. apply andb_true_iff in H. destruct H as [Hc Hs].
  now rewrite (Hpq c Hc), IH.
Qed.

Lemma printable_weaken (c : ascii) : printable c = true -> printable_or_LF c = true.
Proof. unfold printable_or_LF. now intros ->. Qed.

Lemma escape_char_printable (c : ascii) : all_chars printable (escape_char c) = true.
Proof. destruct c as [[] [] [] [] [] [] [] []]; reflexivity. Qed.

Lemma escape_printable (s : string) : all_chars printable (escape s) = true.
Proof.
  induction s as [|c s IH]; [reflexivity|].
  cbn [escape]. now rewrite all_chars_append, escape_char_printable, IH.
Qed.

Lemma encode_basestring_ascii_printable (s : string) :
  all_chars printable (encode_basestring_ascii s) = true.
Proof.
  unfold encode_basestring_ascii. cbn [all_chars].
  now rewrite all_chars_append, escape_printable.
Qed.

Lemma numeral_printable (u : Decimal.uint) :
  all_chars printable (NilEmpty.string_of_uint u) = true.
Proof. induction u; cbn; trivial. Qed.

Lemma int_repr_printable (z : Z) : all_chars printable (Dec.int_repr z) = true.
Proof.
  destruct z as [|p|p]; cbn [Dec.int_repr all_chars].
  - reflexivity.
  - apply numeral_printable.
  - now rewrite numeral_printable.
Qed.

Lemma spaces_printable (n : nat) : all_chars printable (spaces n) = true.
Proof. induction n; cbn; trivial. Qed.

Lemma layout_printable (indent : option nat) (s : string) :
  all_chars printable s = true -> all_chars (layout indent) s = true.
Proof.
  destruct indent; [|trivial].
  apply all_chars_weaken, printable_weaken.
Qed.

Lemma newline_indent_layout (indent : option nat) (level : nat) :
  all_chars (layout indent) (newline_indent indent level) = true.
Proof.
  destruct indent as [n|]; [|reflexivity].
  cbn [newline_indent all_chars layout].
  now rewrite (all_chars_weaken _ _ _ printable_weaken (spaces_printable _)).
Qed.

Lemma item_separator_layout (indent : option nat) :
  all_chars (layout indent) (item_separator indent) = true.
Proof. now destruct indent. Qed.

Lemma concat_layout (p : ascii -> bool) (sep : string) (l : list string) :
  all_chars p sep = true ->
  Forall (fun s => all_chars p s = true) l ->
  all_chars p (String.concat sep l) = true.
Proof.
  intros Hsep. induction 1 as [|a l Ha Hl IH]; [reflexivity|].
  destruct l as [|b l]; [exact Ha|].
  rewrite JsonFacts.concat_cons2, !all_chars_append. now rewrite Ha, Hsep, IH.
Qed.

Lemma iterencode_layout (indent : option nat) (v : pyval) :
  forall level, all_chars (layout indent) (iterencode indent v level) = true.
Proof.
  induction v as [|b|z|s|items IH|items IH] using pyval_ind; intros level.
  - now apply layout_printable.
  - destruct b; now apply layout_printable.
  - apply layout_printable, int_repr_printable.
  - apply layout_printable, encode_basestring_ascii_printable.
  - destruct items as [|x xs]; [now apply layout_printable|].
    rewrite JsonFacts.iterencode_list, !all_chars_append.
    rewrite !newline_indent_layout, concat_layout.
    + now destruct indent.
    + now rewrite all_chars_append, item_separator_layout, newline_indent_layout.
    + apply Forall_map. eapply Forall_impl; [|exact IH]. intros a Ha. apply Ha.
  - destruct items as [|kv kvs]; [now apply layout_printable|].
    rewrite JsonFacts.iterencode_dict, !all_chars_append.
    rewrite !newline_indent_layout, concat_layout.
    + now destruct indent.
    + now rewrite all_chars_append, item_separator_layout, newline_indent_layout.
    + apply Forall_map. eapply Forall_impl; [|exact IH]. intros a Ha.
      unfold JsonAux.encode_member. rewrite !all_chars_append.
      rewrite (layout_printable indent _ (encode_basestring_ascii_printable (fst a))).
      rewrite (Ha (S level)). now destruct indent.
Qed.

End AsciiFacts.

(** ** Keys and the instants they name *)

Module KeyFacts.










End KeyFacts.

(** ** Status, arguments and reports *)

(** X1 (status by outcome).  The handler answers 200 exactly when the
    write returned and the run printed one line; it answers 500 exactly
    when the run printed a line that starts with "Error: "; and it returns
    nothing exactly when the write raised an exception that is no instance
    of [Exception]. *)
Theorem status_by_outcome {py : Interpreter} {Ctx : Type}
    (w : world) (event : pyval) (context : Ctx) :
  ((exists response,
       returned (handler event context w) = Some response
       /\ statusCode response = Some (PInt 200))
   <-> ((exists req, In (PutObject req None) (trace (handler event context w)))
        /\ List.length (printed_lines (trace (handler event context w))) = 1))
  /\ ((exists response,
         returned (handler event context w) = Some response
         /\ statusCode response = Some (PInt 500))
      <-> (exists line,
             In line (printed_lines (trace (handler event context w)))
             /\ startswith "Error: " line = true))
  /\ (returned (handler event context w) = None
      <-> (exists req e,
             In (PutObject req (Some e)) (trace (handler event context w))
             /\ isinstance e "Exception" = false)).
Proof.
  destruct (configured w) as [b|] eqn:E.
  - rewrite (handler_configured w event context b E).
    destruct (encode_error (response_data w event b) recursion_budget) as [e37|];
      [|destruct (s3_put_object w (request w event b)) as [e|];
        [destruct (isinstance e "Exception") eqn:Hexc
        |destruct (encode_error (success_body w event b) recursion_budget) as [e45|]]];
      cbn [returned trace snd printed_lines flat_map List.app Datatypes.length In];
      (split; [|split]); split.
    (* line 37 raised *)
    + intros (r & [= <-] & H). discriminate.
    + intros [[req [H|[H|[H|[]]]]] _]; discriminate.
    + intros _. exists (error_message e37). split; [now left | apply prefix_append].
    + intros _. eexists. split; reflexivity.
    + discriminate.
    + intros (req & e & [H|[H|[H|[]]]] & _); discriminate.
    (* the write raised an instance of Exception *)
    + intros (r & [= <-] & H). discriminate.
    + intros [[req [H|[H|[H|[H|[]]]]]] _]; discriminate.
    + intros _. exists (error_message e). split; [now left | apply prefix_append].
    + intros _. eexists. split; reflexivity.
    + discriminate.
    + intros (req & e' & [H|[H|[H|[H|[]]]]] & He); try discriminate.
      injection H as _ <-. congruence.
    (* the write raised another exception *)
    + intros (r & H & _). discriminate.
    + intros [_ H]. discriminate.
    + intros (r & H & _). discriminate.
    + intros (line & [] & _).
    + intros _. exists (request w event b), e. split; [auto | exact Hexc].
    + reflexivity.
    (* the write returned, line 45 raised *)
    + intros (r & [= <-] & H). discriminate.
    + intros [_ H]. discriminate.
    + intros _. exists (error_message e45).
      split; [right; now left | apply prefix_append].
    + intros _. eexists. split; reflexivity.
    + discriminate.
    + intros (req & e & [H|[H|[H|[H|[H|[]]]]]] & _); discriminate.
    (* the write returned, line 45 gave its text *)
    + intros _. split; [|reflexivity]. exists (request w event b). auto.
    + intros _. eexists. split; reflexivity.
    + intros (r & [= <-] & H). discriminate.
    + intros (line & [<-|[]] & H). discriminate.
    + discriminate.
    + intros (req & e & [H|[H|[H|[H|[]]]]] & _); discriminate.
  - rewrite (handler_unconfigured w event context E).
    cbn [returned trace snd printed_lines flat_map List.app Datatypes.length In].
    (split; [|split]); split.
    + intros (r & [= <-] & H). discriminate.
    + intros [[req [H|[]]] _]. discriminate.
    + intros _. eexists. split; [now left | reflexivity].
    + intros _. eexists. split; reflexivity.
    + discriminate.
    + intros (req & e & [H|[]] & _). discriminate.
Qed.

(** X2 (arguments of the write).  Every call of [s3.put_object] is made
    with the value of BUCKET_NAME as Bucket, never an empty one, with the
    content type application/json, and its outcome is the answer of the
    client to that very request. *)
Theorem put_arguments {py : Interpreter} {Ctx : Type}
    (w : world) (event : pyval) (context : Ctx) (req : put_request) (x : option exn) :
  In (PutObject req x) (trace (handler event context w)) ->
  environ w "BUCKET_NAME" = Some (Bucket req)
  /\ Bucket req <> EmptyString
  /\ ContentType req = "application/json"
  /\ x = s3_put_object w req.
Proof.
  intros H. apply put_in_trace in H. destruct H as (b & E & -> & -> & _).
  apply configured_Some in E. destruct E as [E Hne].
  repeat split; assumption.
Qed.

Lemma put_arguments_witness :
  environ denying_world "BUCKET_NAME"
  = Some (Bucket (request denying_world scenario_event "my-bucket"))
  /\ Bucket (request denying_world scenario_event "my-bucket") <> EmptyString
  /\ ContentType (request denying_world scenario_event "my-bucket") = "application/json"
  /\ Some denied
     = s3_put_object denying_world (request denying_world scenario_event "my-bucket").
Proof.
  apply (put_arguments (py := cpython) denying_world scenario_event tt
           (request denying_world scenario_event "my-bucket") (Some denied)).
  vm_compute. right. right. left. reflexivity.
Defined.

(** X3 (failure report).  A 500 envelope carries, in the compact layout, a
    dict with the single key [error]; its value starts with "Error: ", is
    the last line printed by the run, and is "Error: " followed by the text
    of the exception that was caught: that of the client when the write
    raised, that of the encoder when line 37 or line 45 raised, the message
    about BUCKET_NAME when it was not set. *)
Theorem failure_report {py : Interpreter} {Ctx : Type}
    (w : world) (event : pyval) (context : Ctx) (response : pyval) :
  returned (handler event context w) = Some response ->
  statusCode response = Some (PInt 500) ->
  exists (message text : string) (before : list effect),
    get "body" response = Some (PStr text)
    /\ dumps None (PDict [("error", PStr message)]) = Returns text
    /\ decoded_body response = Some (PDict [("error", PStr message)])
    /\ startswith "Error: " message = true
    /\ trace (handler event context w) = (before ++ [Printed message])%list
    /\ (forall req e,
          In (PutObject req (Some e)) (trace (handler event context w)) ->
          message = "Error: " ++ str e)
    /\ (environ w "BUCKET_NAME" = None \/ environ w "BUCKET_NAME" = Some EmptyString ->
        message = "Error: BUCKET_NAME environment variable not set")
    /\ (forall b e,
          environ w "BUCKET_NAME" = Some b -> b <> EmptyString ->
          dumps (Some 2) (response_data w event b) = Raises e ->
          message = "Error: " ++ str e)
    /\ (forall b e,
          environ w "BUCKET_NAME" = Some b ->
          (exists req, In (PutObject req None) (trace (handler event context w))) ->
          dumps (Some 2) (success_body w event b) = Raises e ->
          message = "Error: " ++ str e).
Proof.
  destruct (configured w) as [b|] eqn:E.
  - assert (Hb := proj1 (configured_Some w b) E). destruct Hb as [Henv Hne].
    assert (Hset : ~ (environ w "BUCKET_NAME" = None
                      \/ environ w "BUCKET_NAME" = Some EmptyString)).
    { intros H. apply configured_None in H. congruence. }
    assert (Hsame : forall b', environ w "BUCKET_NAME" = Some b' -> b' = b)
      by (intros b' H; congruence).
    rewrite (handler_configured w event context b E).
    destruct (encode_error (response_data w event b) recursion_budget)
      as [e37|] eqn:E37;
      [|destruct (s3_put_object w (request w event b)) as [e|];
        [destruct (isinstance e "Exception") eqn:Hexc
        |destruct (encode_error (success_body w event b) recursion_budget)
           as [e45|] eqn:E45]];
      cbn [returned]; try discriminate; intros [= <-]; try discriminate; intros _.
    + exists (error_message e37), (encode None (failure_body e37)),
             [Utcnow (first_reading w); Utcnow (second_reading w)].
      split; [reflexivity|]. split; [apply dumps_one_str|].
      split; [apply decoded_failure|]. split; [apply prefix_append|].
      split; [reflexivity|]. split; [|split; [tauto|split]].
      * intros req e H. cbn [trace snd In] in H.
        destruct H as [H|[H|[H|[]]]]; discriminate.
      * intros b' e Hb' _ Hraise. apply Hsame in Hb'. subst b'.
        apply dumps_Raises in Hraise. cbn [room] in Hraise.
        first [ rewrite E37 in Hraise | rewrite E45 in Hraise ];
          first [ discriminate | injection Hraise as <-; reflexivity ].
      * intros b' e _ [req H] _. cbn [trace snd In] in H.
        destruct H as [H|[H|[H|[]]]]; discriminate.
    + exists (error_message e), (encode None (failure_body e)),
             [Utcnow (first_reading w); Utcnow (second_reading w);
              PutObject (request w event b) (Some e)].
      split; [reflexivity|]. split; [apply dumps_one_str|].
      split; [apply decoded_failure|]. split; [apply prefix_append|].
      split; [reflexivity|]. split; [|split; [tauto|split]].
      * intros req e' H. cbn [trace snd In] in H.
        destruct H as [H|[H|[H|[H|[]]]]]; try discriminate.
        now injection H as _ <-.
      * intros b' e' Hb' _ Hraise. apply Hsame in Hb'. subst b'.
        apply dumps_Raises in Hraise. cbn [room] in Hraise.
        first [ rewrite E37 in Hraise | rewrite E45 in Hraise ];
          first [ discriminate | injection Hraise as <-; reflexivity ].
      * intros b' e' _ [req H] _. cbn [trace snd In] in H.
        destruct H as [H|[H|[H|[H|[]]]]]; discriminate.
    + exists (error_message e45), (encode None (failure_body e45)),
             [Utcnow (first_reading w); Utcnow (second_reading w);
              PutObject (request w event b) None; Printed (success_line w b)].
      split; [reflexivity|]. split; [apply dumps_one_str|].
      split; [apply decoded_failure|]. split; [apply prefix_append|].
      split; [reflexivity|]. split; [|split; [tauto|split]].
      * intros req e H. cbn [trace snd In] in H.
        destruct H as [H|[H|[H|[H|[H|[]]]]]]; discriminate.
      * intros b' e Hb' _ Hraise. apply Hsame in Hb'. subst b'.
        apply dumps_Raises in Hraise. cbn [room] in Hraise.
        first [ rewrite E37 in Hraise | rewrite E45 in Hraise ];
          first [ discriminate | injection Hraise as <-; reflexivity ].
      * intros b' e Hb' _ Hraise. apply Hsame in Hb'. subst b'.
        apply dumps_Raises in Hraise. cbn [room] in Hraise.
        first [ rewrite E37 in Hraise | rewrite E45 in Hraise ];
          first [ discriminate | injection Hraise as <-; reflexivity ].
  - assert (Hunset := proj1 (configured_None w) E).
    rewrite (handler_unconfigured w event context E).
    cbn [returned]. intros [= <-] _.
    exists "Error: BUCKET_NAME environment variable not set",
           (encode None
              (failure_body (ValueError "BUCKET_NAME environment variable not set"))),
           [].
    split; [reflexivity|]. split; [apply dumps_one_str|].
    split; [reflexivity|]. split; [reflexivity|]. split; [reflexivity|].
    split; [|split; [reflexivity|split]].
    + intros req e H. cbn [trace snd In] in H. destruct H as [H|[]]. discriminate.
    + intros b e Hb Hne _. exfalso. destruct Hunset as [H|H]; rewrite H in Hb.
      * discriminate.
      * injection Hb as <-. now elim Hne.
    + intros b e _ [req H] _. cbn [trace snd In] in H. destruct H as [H|[]].
      discriminate.
Qed.

Lemma failure_report_witness :
  exists (message text : string) (before : list effect),
    get "body" (failure_response (ValueError
       ("Exceeds the limit (4300 digits) for integer string conversion; "
        ++ "use sys.set_int_max_str_digits() to increase the limit")))
    = Some (PStr text)
    /\ dumps (py := cpython) None (PDict [("error", PStr message)]) = Returns text
    /\ decoded_body (failure_response (ValueError
          ("Exceeds the limit (4300 digits) for integer string conversion; "
           ++ "use sys.set_int_max_str_digits() to increase the limit")))
       = Some (PDict [("error", PStr message)])
    /\ startswith "Error: " message = true
    /\ trace (handler (py := cpython) long_int_event tt scenario_world)
       = (before ++ [Printed message])%list
    /\ (forall req e,
          In (PutObject req (Some e))
             (trace (handler (py := cpython) long_int_event tt scenario_world)) ->
          message = "Error: " ++ str e)
    /\ (environ scenario_world "BUCKET_NAME" = None
        \/ environ scenario_world "BUCKET_NAME" = Some EmptyString ->
        message = "Error: BUCKET_NAME environment variable not set")
    /\ (forall b e,
          environ scenario_world "BUCKET_NAME" = Some b -> b <> EmptyString ->
          dumps (py := cpython) (Some 2) (response_data scenario_world long_int_event b)
          = Raises e ->
          message = "Error: " ++ str e)
    /\ (forall b e,
          environ scenario_world "BUCKET_NAME" = Some b ->
          (exists req,
              In (PutObject req None)
                 (trace (handler (py := cpython) long_int_event tt scenario_world))) ->
          dumps (py := cpython) (Some 2) (success_body scenario_world long_int_event b)
          = Raises e ->
          message = "Error: " ++ str e).
Proof.
  apply (failure_report (py := cpython) scenario_world long_int_event tt).
  - rewrite long_int_handler. reflexivity.
  - reflexivity.
Defined.

(** X4 (success report).  A 200 envelope carries a dict with the keys
    message, data and s3_location, in this order; [s3_location] is
    s3://<Bucket>/<Key> of the request that was made, and the run ends with
    that request and the line "Successfully wrote data to " followed by the
    same location. *)
Theorem success_report {py : Interpreter} {Ctx : Type}
    (w : world) (event : pyval) (context : Ctx) (response : pyval) :
  well_formed event = true ->
  returned (handler event context w) = Some response ->
  statusCode response = Some (PInt 200) ->
  exists (req : put_request) (location : string) (before : list effect) (body : pyval),
    trace (handler event context w)
    = (before ++ [PutObject req None;
                  Printed ("Successfully wrote data to " ++ location)])%list
    /\ location = "s3://" ++ Bucket req ++ "/" ++ Key req
    /\ decoded_body response = Some body
    /\ keys body = ["message"; "data"; "s3_location"]
    /\ get "s3_location" body = Some (PStr location).
Proof.
  intros Hwf Hret Hcode.
  destruct (returned_200 w event context response Hret Hcode)
    as (b & E & -> & _ & _ & _ & Htrace).
  exists (request w event b), ("s3://" ++ b ++ "/" ++ s3_key w),
         [Utcnow (first_reading w); Utcnow (second_reading w)],
         (success_body w event b).
  rewrite Htrace.
  split; [reflexivity|]. split; [reflexivity|].
  split; [now apply decoded_success|]. split; reflexivity.
Qed.

Lemma success_report_witness :
  exists (req : put_request) (location : string) (before : list effect) (body : pyval),
    trace (handler (py := cpython) scenario_event tt scenario_world)
    = (before ++ [PutObject req None;
                  Printed ("Successfully wrote data to " ++ location)])%list
    /\ location = "s3://" ++ Bucket req ++ "/" ++ Key req
    /\ decoded_body (success_response scenario_world scenario_event "my-bucket")
       = Some body
    /\ keys body = ["message"; "data"; "s3_location"]
    /\ get "s3_location" body = Some (PStr location).
Proof.
  apply (success_report (py := cpython) scenario_world scenario_event tt
           (success_response scenario_world scenario_event "my-bucket")).
  - reflexivity.
  - reflexivity.
  - reflexivity.
Defined.

(** ** The world around a run *)

(** X5 (what a run leaves behind).  The handler changes nothing in the
    environment, the clock or the S3 client; it reads the clock twice, or
    not at all, and not at all exactly when BUCKET_NAME is unset or empty:
    the check of the configuration comes before the first reading. *)
Theorem world_frame {py : Interpreter} {Ctx : Type}
    (w : world) (event : pyval) (context : Ctx) :
  environ (world_after (handler event context w)) = environ w
  /\ clock (world_after (handler event context w)) = clock w
  /\ s3_put_object (world_after (handler event context w)) = s3_put_object w
  /\ (ticks (world_after (handler event context w)) = ticks w
      \/ ticks (world_after (handler event context w)) = S (S (ticks w)))
  /\ (ticks (world_after (handler event context w)) = ticks w
      <-> clock_reads (trace (handler event context w)) = [])
  /\ (clock_reads (trace (handler event context w)) = []
      <-> (environ w "BUCKET_NAME" = None
           \/ environ w "BUCKET_NAME" = Some EmptyString)).
Proof.
  destruct (configured w) as [b|] eqn:E.
  - assert (Hset : ~ (environ w "BUCKET_NAME" = None
                      \/ environ w "BUCKET_NAME" = Some EmptyString)).
    { intros H. apply configured_None in H. congruence. }
    destruct (reads_of_run w event context b E) as [-> ->].
    cbn [read_twice environ clock ticks Runtime.s3_put_object].
    repeat (split; try reflexivity); try (now right);
      try discriminate; try tauto; try lia.
  - assert (Hunset := proj1 (configured_None w) E).
    rewrite (handler_unconfigured w event context E).
    cbn [world_after trace snd fst clock_reads flat_map List.app].
    repeat (split; try reflexivity); try (now left); tauto.
Qed.

(** X6 (what a run reads).  The envelope and the effects of a run depend
    only on the value of BUCKET_NAME, the next two readings of the clock
    and the answers of the S3 client: neither the context, nor the rest of
    the environment, nor the number of readings taken before matter. *)
Theorem reads_only {py : Interpreter} {Ctx Ctx' : Type}
    (w w' : world) (event : pyval) (context : Ctx) (context' : Ctx') :
  agree w w' ->
  returned (handler event context w) = returned (handler event context' w')
  /\ trace (handler event context w) = trace (handler event context' w').
Proof.
  intros (Henv & H1 & H2 & Hs3).
  assert (Hc : configured w = configured w') by (unfold configured; now rewrite Henv).
  destruct (configured w) as [b|] eqn:E; symmetry in Hc.
  - rewrite (handler_configured w event context b E),
            (handler_configured w' event context' b Hc).
    assert (Hrec : response_data w event b = response_data w' event b).
    { unfold response_data, first_reading. now rewrite H1. }
    assert (Hkey : s3_key w = s3_key w').
    { unfold s3_key, second_reading. now rewrite H2. }
    assert (Hreq : request w event b = request w' event b).
    { unfold request. now rewrite Hrec, Hkey. }
    assert (Hbody : success_body w event b = success_body w' event b).
    { unfold success_body. now rewrite Hrec, Hkey. }
    assert (Hok : success_response w event b = success_response w' event b).
    { unfold success_response. now rewrite Hbody. }
    assert (Hline : success_line w b = success_line w' b).
    { unfold success_line. now rewrite Hkey. }
    rewrite <- Hrec, <- Hreq, <- Hs3, <- Hbody, <- Hok, <- Hline.
    unfold first_reading, second_reading. rewrite <- H1, <- H2.
    destruct (encode_error (response_data w event b) recursion_budget) as [e37|];
      [split; reflexivity|].
    destruct (s3_put_object w (request w event b)) as [e|];
      [destruct (isinstance e "Exception")
      |destruct (encode_error (success_body w event b) recursion_budget) as [e45|]];
      split; reflexivity.
  - rewrite (handler_unconfigured w event context E),
            (handler_unconfigured w' event context' Hc).
    split; reflexivity.
Qed.

Lemma reads_only_witness :
  returned (handler (py := cpython) scenario_event tt scenario_world)
  = returned (handler (py := cpython) scenario_event (Some 3) busy_world)
  /\ trace (handler (py := cpython) scenario_event tt scenario_world)
     = trace (handler (py := cpython) scenario_event (Some 3) busy_world).
Proof.
  apply (reads_only (py := cpython) scenario_world busy_world scenario_event tt (Some 3)).
  repeat split; reflexivity.
Defined.

(** ** Two invocations in a row *)




(** ** The texts *)

(** X8 (plain texts).  The body of every envelope and the Body of every
    write are made of printable ASCII characters and line feeds, whatever
    the event, the bucket name and the text of an exception hold; the body
    of a 500 envelope has no line feed: it is one line. *)
Theorem bodies_are_ascii {py : Interpreter} {Ctx : Type}
    (w : world) (event : pyval) (context : Ctx) :
  (forall response text,
      returned (handler event context w) = Some response ->
      get "body" response = Some (PStr text) ->
      all_chars printable_or_LF text = true
      /\ (statusCode response = Some (PInt 500) -> all_chars printable text = true))
  /\ (forall req x,
        In (PutObject req x) (trace (handler event context w)) ->
        all_chars printable_or_LF (Body req) = true).
Proof.
  assert (Hfail : forall e text,
    get "body" (failure_response e) = Some (PStr text) ->
    all_chars printable_or_LF text = true
    /\ (statusCode (failure_response e) = Some (PInt 500) ->
        all_chars printable text = true)).
  { intros e text [= <-].
    assert (H := AsciiFacts.iterencode_layout None (failure_body e) 0).
    split; [|intros _; exact H].
    exact (AsciiFacts.all_chars_weaken _ _ _ AsciiFacts.printable_weaken H). }
  split.
  - intros response text.
    destruct (configured w) as [b|] eqn:E.
    + rewrite (handler_configured w event context b E).
      destruct (encode_error (response_data w event b) recursion_budget) as [e37|];
        [|destruct (s3_put_object w (request w event b)) as [e|];
          [destruct (isinstance e "Exception")
          |destruct (encode_error (success_body w event b) recursion_budget)
             as [e45|]]];
        cbn [returned]; try discriminate; intros [= <-]; try apply Hfail.
      intros [= <-]. split; [|discriminate].
      exact (AsciiFacts.iterencode_layout (Some 2) (success_body w event b) 0).
    + rewrite (handler_unconfigured w event context E).
      cbn [returned]. intros [= <-]. apply Hfail.
  - intros req x H. apply put_in_trace in H. destruct H as (b & _ & -> & _).
    exact (AsciiFacts.iterencode_layout (Some 2) (response_data w event b) 0).
Qed.

(** X9 (stored object).  The text handed to [s3.put_object] decodes to the
    record: the event as it came in, the first reading of the clock in ISO
    format as timestamp, and the Bucket of the request as bucket; so it is
    whether the write then returns or raises. *)
Theorem stored_object {py : Interpreter} {Ctx : Type}
    (w : world) (event : pyval) (context : Ctx) (req : put_request) (x : option exn) :
  well_formed event = true ->
  In (PutObject req x) (trace (handler event context w)) ->
  exists stored,
    loads (Body req) = Some stored
    /\ get "event" stored = Some event
    /\ get "timestamp" stored = Some (PStr (isoformat (clock w (ticks w))))
    /\ get "bucket" stored = Some (PStr (Bucket req)).
Proof.
  intros Hwf H. apply put_in_trace in H. destruct H as (b & _ & -> & _).
  exists (response_data w event b).
  split; [now apply stored_record|]. repeat split; reflexivity.
Qed.

Lemma stored_object_witness :
  exists stored,
    loads (Body (request denying_world scenario_event "my-bucket")) = Some stored
    /\ get "event" stored = Some scenario_event
    /\ get "timestamp" stored
       = Some (PStr (isoformat (clock denying_world (ticks denying_world))))
    /\ get "bucket" stored
       = Some (PStr (Bucket (request denying_world scenario_event "my-bucket"))).
Proof.
  apply (stored_object (py := cpython) denying_world scenario_event tt
           (request denying_world scenario_event "my-bucket") (Some denied)).
  - reflexivity.
  - vm_compute. right. right. left. reflexivity.
Defined.

(** ** When the encoder raises *)

Lemma depth_response_data (w : world) (event : pyval) (b : string) :
  depth (response_data w event b) = S (depth event).
Proof.
  unfold response_data. cbn [depth map snd list_max fold_right]. lia.
Qed.

(** X10 (written, yet 500).  When the write returned and the [json.dumps]
    of line 45 raises, the handler answers 500 although the object is in
    the store; the run has printed the line of the success and then the
    line of the error. *)
Theorem written_yet_500 {py : Interpreter} {Ctx : Type}
    (w : world) (event : pyval) (context : Ctx) (bucket_name : string) (e : exn) :
  environ w "BUCKET_NAME" = Some bucket_name ->
  (exists req, In (PutObject req None) (trace (handler event context w))) ->
  dumps (Some 2) (success_body w event bucket_name) = Raises e ->
  exists req response,
    returned (handler event context w) = Some response
    /\ statusCode response = Some (PInt 500)
    /\ objects_written (trace (handler event context w)) = [req]
    /\ Bucket req = bucket_name
    /\ printed_lines (trace (handler event context w))
       = ["Successfully wrote data to s3://" ++ bucket_name ++ "/" ++ Key req;
          "Error: " ++ str e].
Proof.
  intros Henv [req Hput] Hraise.
  apply put_in_trace in Hput. destruct Hput as (b & E & _ & Hok & E37).
  assert (b = bucket_name) as ->.
  { apply configured_Some in E. destruct E as [E _]. congruence. }
  apply dumps_Raises in Hraise. cbn [room] in Hraise. symmetry in Hok.
  rewrite (handler_configured w event context bucket_name E), E37, Hok, Hraise.
  exists (request w event bucket_name), (failure_response e).
  repeat split; reflexivity.
Qed.

Lemma written_yet_500_witness :
  exists req response,
    returned (handler (py := cpython) deep_event tt scenario_world) = Some response
    /\ statusCode response = Some (PInt 500)
    /\ objects_written (trace (handler (py := cpython) deep_event tt scenario_world))
       = [req]
    /\ Bucket req = "my-bucket"
    /\ printed_lines (trace (handler (py := cpython) deep_event tt scenario_world))
       = ["Successfully wrote data to s3://" ++ "my-bucket" ++ "/" ++ Key req;
          "Error: " ++ str (RecursionError "maximum recursion depth exceeded")].
Proof.
  assert (E : configured scenario_world = Some "my-bucket") by reflexivity.
  assert (E37 : encode_error (py := cpython)
                  (response_data scenario_world deep_event "my-bucket")
                  (recursion_budget (Interpreter := cpython)) = None)
    by (vm_compute; reflexivity).
  assert (E45 : encode_error (py := cpython)
                  (success_body scenario_world deep_event "my-bucket")
                  (recursion_budget (Interpreter := cpython))
                = Some (RecursionError "maximum recursion depth exceeded"))
    by (vm_compute; reflexivity).
  apply (written_yet_500 (py := cpython) scenario_world deep_event tt "my-bucket"
           (RecursionError "maximum recursion depth exceeded")).
  - reflexivity.
  - exists (request scenario_world deep_event "my-bucket").
    rewrite (handler_configured (py := cpython) scenario_world deep_event tt
               "my-bucket" E), E37, E45.
    cbn [trace snd In]. right. right. left. reflexivity.
  - apply dumps_Raises. exact E45.
Defined.

(** X11 (event too deep).  When BUCKET_NAME is set and the event nests as
    deep as the encoder has room for, or deeper, line 37 raises: the
    handler has read the clock twice, calls [s3.put_object] not at all, and
    answers 500 after printing one line that starts with "Error: ". *)
Theorem event_too_deep {py : Interpreter} {Ctx : Type}
    (w : world) (event : pyval) (context : Ctx) (bucket_name : string) :
  environ w "BUCKET_NAME" = Some bucket_name ->
  bucket_name <> EmptyString ->
  recursion_budget <= depth event ->
  exists response message,
    returned (handler event context w) = Some response
    /\ statusCode response = Some (PInt 500)
    /\ put_requests (trace (handler event context w)) = []
    /\ clock_reads (trace (handler event context w))
       = [clock w (ticks w); clock w (S (ticks w))]
    /\ printed_lines (trace (handler event context w)) = [message]
    /\ startswith "Error: " message = true.
Proof.
  intros Henv Hne Hdeep.
  assert (E : configured w = Some bucket_name) by now apply configured_Some.
  assert (Hraise : encode_error (response_data w event bucket_name) recursion_budget
                   <> None).
  { apply encode_error_deep. rewrite depth_response_data. lia. }
  rewrite (handler_configured w event context bucket_name E).
  destruct (encode_error (response_data w event bucket_name) recursion_budget)
    as [e|]; [|now elim Hraise].
  exists (failure_response e), (error_message e).
  repeat split; try reflexivity. apply prefix_append.
Qed.

Lemma event_too_deep_witness :
  exists response message,
    returned (handler (py := cpython) deeper_event tt scenario_world) = Some response
    /\ statusCode response = Some (PInt 500)
    /\ put_requests (trace (handler (py := cpython) deeper_event tt scenario_world)) = []
    /\ clock_reads (trace (handler (py := cpython) deeper_event tt scenario_world))
       = [clock scenario_world (ticks scenario_world);
          clock scenario_world (S (ticks scenario_world))]
    /\ printed_lines (trace (handler (py := cpython) deeper_event tt scenario_world))
       = [message]
    /\ startswith "Error: " message = true.
Proof.
  apply (event_too_deep (py := cpython) scenario_world deeper_event tt "my-bucket").
  - reflexivity.
  - discriminate.
  - apply Nat.leb_le. vm_compute. reflexivity.
Defined.

(** ** The scenario of the spec *)

Module ScenarioFacts.

Example scenario_key :
  map (fun call => Key (fst call))
      (put_requests (trace (handler (py := cpython) scenario_event tt scenario_world)))
  = ["lambda-executions/2024-01-02/03-04-05.json"].
Proof. reflexivity. Qed.

Example scenario_location :
  match decoded_body (success_response scenario_world scenario_event "my-bucket") with
  | Some body => get "s3_location" body
  | None => None
  end
  = Some (PStr "s3://my-bucket/lambda-executions/2024-01-02/03-04-05.json").
Proof. reflexivity. Qed.

Example scenario_unset :
  trace (handler (py := cpython) scenario_event tt unconfigured_world)
  = [Printed "Error: BUCKET_NAME environment variable not set"].
Proof. reflexivity. Qed.

Example long_int_run :
  put_requests (trace (handler (py := cpython) long_int_event tt scenario_world)) = []
  /\ option_map statusCode
       (returned (handler (py := cpython) long_int_event tt scenario_world))
     = Some (Some (PInt 500))
  /\ printed_lines (trace (handler (py := cpython) long_int_event tt scenario_world))
     = ["Error: Exceeds the limit (4300 digits) for integer string conversion; "
        ++ "use sys.set_int_max_str_digits() to increase the limit"].
Proof. rewrite long_int_handler. repeat split. Qed.

End ScenarioFacts.
